(** * Python-OSC-Wrapper: a shallow embedding of [osc/__init__.py]

    The module wraps the [pythonosc] library with two decorators, [send] and
    [receive], a process-wide registry kept in the default argument of
    [__servers], and [start_servers] / [wait].  Python objects become plain
    data, the interpreter state touched by the module becomes an explicit
    [World], and the calls into [pythonosc], [threading] and [time] are
    answered by a [Runtime]. *)

From Stdlib Require Import ZArith String Ascii List PrimFloat Lia.
From Stdlib.Strings Require Import Byte.
From stdpp Require Import gmap strings list fin_maps.

Set Warnings "-register-all".

Open Scope Z_scope.
Open Scope string_scope.
Open Scope list_scope.

(** ** Values *)

(** [Message = Optional[int | float | bytes | str | bool | tuple | list]];
    the same type carries every other Python value the module passes along
    (a packet is the tuple [(address, message)]). *)
Inductive PyVal : Type :=
| PyNone
| PyInt (n : Z)
| PyFloat (x : float)
| PyBytes (b : list byte)
| PyStr (s : string)
| PyBool (b : bool)
| PyTuple (items : list PyVal)
| PyList (items : list PyVal).

Definition Message : Type := PyVal.

(** [tuple[str, Message]], as a sender function builds it. *)
Definition packet_of (address : string) (message : Message) : PyVal :=
  PyTuple [PyStr address; message].

(** The arguments of a call: [*args] and [**kwargs]. *)
Record Args : Type := mkArgs {
  positional : list PyVal;
  keywords : list (string * PyVal)
}.

Definition pos_args (l : list PyVal) : Args := mkArgs l [].

(** Exceptions the module raises or lets through. *)
Inductive PyExn : Type :=
| ValueError (msg : string)
| TypeError
| KeyboardInterrupt
| OSError (msg : string)
| OtherError (name : string).

(** Function objects, compared by identity: a function the user wrote, or one
    of the two closures the decorators build around a function. *)
Inductive Callable : Type :=
| UserFunction (name : string)
| SendWrapper (host : string) (port : Z) (f : Callable)
| ReceiveWrapper (f : Callable).

(** [__Servers = dict[tuple[str, int], dict[str, Callable]]] *)
Abbreviation __Servers := (gmap (string * Z) (gmap string Callable)).

(** ** The objects of [pythonosc] and [threading] *)

(** [dispatcher.Dispatcher]: the handlers in the order they were mapped. *)
Definition Dispatcher : Type := list (string * Callable).

Definition new_dispatcher : Dispatcher := [].

(** [d.map(address, callback)] *)
Definition dispatcher_map (d : Dispatcher) (address : string) (callback : Callable)
  : Dispatcher :=
  d ++ [(address, callback)].

(** [osc_server.ThreadingOSCUDPServer((host, port), d)] *)
Record OSCUDPServer : Type := mkServer {
  server_address : string * Z;
  server_dispatcher : Dispatcher
}.

(** [threading.Thread(target=lambda: server.serve_forever(), daemon=True)].
    The target is a closure over the local variable [server];
    [server_at_start] is the value of that variable when the thread is
    started.  When the closure is run, and so which value it then reads, is
    for the scheduler and is not part of this model. *)
Record Thread : Type := mkThread {
  server_at_start : OSCUDPServer;
  thread_daemon : bool
}.

(** One evaluation of [udp_client.SimpleUDPClient(host, port).send_message]
    on the unpacked [packet], and the exception it ended with, if any. *)
Record ClientCall : Type := mkClientCall {
  client_host : string;
  client_port : Z;
  client_packet : PyVal;
  client_error : option PyExn
}.

(** One [logging.debug(f"Sending {packet} -> {host}:{port}")]. *)
Record DebugRecord : Type := mkDebug {
  debug_packet : PyVal;
  debug_host : string;
  debug_port : Z
}.

(** ** The state of the process *)

Record World : Type := mkWorld {
  (** the dictionary object held by the default argument of [__servers] *)
  servers_dict : __Servers;
  debug_log : list DebugRecord;
  client_calls : list ClientCall;
  servers : list OSCUDPServer;
  threads : list Thread;
  (** calls of [time.sleep] so far *)
  sleeps : nat
}.

Definition initial_world : World := mkWorld ∅ [] [] [] [] 0%nat.

Definition set_servers_dict (d : __Servers) (w : World) : World :=
  mkWorld d (debug_log w) (client_calls w) (servers w) (threads w) (sleeps w).

Definition add_debug (r : DebugRecord) (w : World) : World :=
  mkWorld (servers_dict w) (debug_log w ++ [r]) (client_calls w) (servers w)
    (threads w) (sleeps w).

Definition add_client_call (c : ClientCall) (w : World) : World :=
  mkWorld (servers_dict w) (debug_log w) (client_calls w ++ [c]) (servers w)
    (threads w) (sleeps w).

Definition add_server (s : OSCUDPServer) (w : World) : World :=
  mkWorld (servers_dict w) (debug_log w) (client_calls w) (servers w ++ [s])
    (threads w) (sleeps w).

Definition add_thread (t : Thread) (w : World) : World :=
  mkWorld (servers_dict w) (debug_log w) (client_calls w) (servers w)
    (threads w ++ [t]) (sleeps w).

Definition add_sleep (w : World) : World :=
  mkWorld (servers_dict w) (debug_log w) (client_calls w) (servers w)
    (threads w) (S (sleeps w)).

(** ** Computations: state and exceptions *)

Inductive Outcome (A : Type) : Type :=
| Returned (a : A)
| Raised (e : PyExn).
Arguments Returned {A} a.
Arguments Raised {A} e.

Definition Py (A : Type) : Type := World -> Outcome A * World.

#[export] Instance Py_ret : MRet Py := fun A a w => (Returned a, w).

#[export] Instance Py_bind : MBind Py := fun A B k c w =>
  match c w with
  | (Returned a, w') => k a w'
  | (Raised e, w') => (Raised e, w')
  end.

Definition raise {A : Type} (e : PyExn) : Py A := fun w => (Raised e, w).

Definition get_world : Py World := fun w => (Returned w, w).

Definition modify_world (f : World -> World) : Py unit := fun w => (Returned tt, f w).

(** What the module cannot decide by itself: the bodies of the user's
    functions, whether the OSC client and server calls raise, and whether a
    [time.sleep] is cut short by a [KeyboardInterrupt]. *)
Class Runtime : Type := mkRuntime {
  user_function : string -> Args -> Py PyVal;
  send_message_error : World -> string -> Z -> PyVal -> option PyExn;
  server_error : World -> string * Z -> Dispatcher -> option PyExn;
  sleep_interrupted : nat -> bool
}.

(** ** [__servers] *)

(** [__servers(update=None, /, *, __servers={})]: [dict.update] rebinds every
    key of [update] to the value [update] gives it; the dictionary itself is
    returned. *)
Definition __servers (update : option __Servers) : Py __Servers :=
  match update with
  | Some u => modify_world (fun w => set_servers_dict (u ∪ servers_dict w) w)
  | None => mret tt
  end;;
  w ← get_world;
  mret (servers_dict w).

(** ** [send] *)

Definition logging_debug (packet : PyVal) (host : string) (port : Z) : Py unit :=
  modify_world (add_debug (mkDebug packet host port)).

(** [udp_client.SimpleUDPClient(host, port).send_message] on the unpacked [packet] *)
Definition send_message `{Runtime} (host : string) (port : Z) (packet : PyVal)
  : Py unit :=
  fun w =>
    let err := send_message_error w host port packet in
    let w' := add_client_call (mkClientCall host port packet err) w in
    match err with
    | None => (Returned tt, w')
    | Some e => (Raised e, w')
    end.

(** [wrapper(addr: str, message: Message = None)]: how Python binds the
    arguments of a call to the two parameters; [None] is the [TypeError] of a
    call that does not fit the signature. *)
Definition keyword_lookup (name : string) (kw : list (string * PyVal)) : option PyVal :=
  snd <$> List.find (fun p => String.eqb (fst p) name) kw.

Definition known_keywords (kw : list (string * PyVal)) : bool :=
  forallb (fun p => String.eqb (fst p) "addr" || String.eqb (fst p) "message") kw
  && bool_decide (NoDup (fst <$> kw)).

Definition bind_addr_message (args : Args) : option (PyVal * PyVal) :=
  let kw := keywords args in
  if known_keywords kw then
    match positional args with
    | [] =>
        match keyword_lookup "addr" kw with
        | Some addr => Some (addr, default PyNone (keyword_lookup "message" kw))
        | None => None
        end
    | [addr] =>
        match keyword_lookup "addr" kw with
        | Some _ => None
        | None => Some (addr, default PyNone (keyword_lookup "message" kw))
        end
    | [addr; message] =>
        match kw with
        | [] => Some (addr, message)
        | _ :: _ => None
        end
    | _ => None
    end
  else None.

(** Calling a function object. *)
Fixpoint call `{Runtime} (c : Callable) (args : Args) : Py PyVal :=
  match c with
  | UserFunction name => user_function name args
  | SendWrapper host port f =>
      (* the wrapper that send builds *)
      packet ← call f args;
      logging_debug packet host port;;
      send_message host port packet;;
      mret packet
  | ReceiveWrapper f =>
      (* the wrapper that receive builds *)
      match bind_addr_message args with
      | Some (addr, message) => call f (pos_args [addr; message])
      | None => raise TypeError
      end
  end.

(** [send(host, port)] returns [decorator]; [decorator(f)] returns [wrapper]. *)
Record SendDecorator : Type := mkSendDecorator {
  sd_host : string;
  sd_port : Z
}.

Definition send (host : string) (port : Z) : SendDecorator :=
  mkSendDecorator host port.

Definition send_decorator (d : SendDecorator) (f : Callable) : Callable :=
  SendWrapper (sd_host d) (sd_port d) f.

(** ** [receive] *)

Record ReceiveDecorator : Type := mkReceiveDecorator {
  rd_host : string;
  rd_port : Z;
  rd_address : option string;
  rd_addresses : option (list string)
}.

Definition receive (host : string) (port : Z)
    (address : option string) (addresses : option (list string))
  : PyExn + ReceiveDecorator :=
  match address, addresses with
  | None, None => inl (ValueError "Must specify an address.")
  | _, _ => inr (mkReceiveDecorator host port address addresses)
  end.

(** "Consolidate addresses into a list." *)
Definition consolidate (address : option string) (addresses : option (list string))
  : list string :=
  let _addrs := [] in
  let _addrs := match address with Some a => _addrs ++ [a] | None => _addrs end in
  match addresses with Some l => _addrs ++ l | None => _addrs end.

(** [for _addr in _addrs: __servers({(host, port): {_addr: f}})] *)
Fixpoint register_addresses (host : string) (port : Z) (f : Callable)
    (_addrs : list string) : Py unit :=
  match _addrs with
  | [] => mret tt
  | _addr :: rest =>
      __servers (Some {[ (host, port) := {[ _addr := f ]} ]});;
      register_addresses host port f rest
  end.

Definition receive_decorator (d : ReceiveDecorator) (f : Callable) : Py Callable :=
  register_addresses (rd_host d) (rd_port d) f
    (consolidate (rd_address d) (rd_addresses d));;
  mret (ReceiveWrapper f).

(** ** [start_servers] and [wait] *)

(** [server = osc_server.ThreadingOSCUDPServer((host, port), d)] *)
Definition new_server `{Runtime} (address : string * Z) (d : Dispatcher)
  : Py OSCUDPServer :=
  fun w =>
    match server_error w address d with
    | None => let s := mkServer address d in (Returned s, add_server s w)
    | Some e => (Raised e, w)
    end.

(** [threading.Thread(target=lambda: server.serve_forever(), daemon=True).start()] *)
Definition thread_start (server : OSCUDPServer) : Py unit :=
  modify_world (add_thread (mkThread server true)).

(** The inner loop: [for address, callback in binds.items(): d.map(address, callback)] *)
Definition map_binds (d : Dispatcher) (binds : list (string * Callable)) : Dispatcher :=
  foldl (fun d '(address, callback) => dispatcher_map d address callback) d binds.

(** The outer loop over [__servers().items()], for the items in the order
    they are gone through.  A Python dictionary is gone through in insertion
    order, a [gmap] in the order of its keys: what is stated of [start_each]
    holds for every list of items, and what is stated of [start_servers]
    does not depend on the order. *)
Fixpoint start_each `{Runtime} (items : list (string * Z * gmap string Callable))
  : Py unit :=
  match items with
  | [] => mret tt
  | (address, binds) :: rest =>
      let d := map_binds new_dispatcher (map_to_list binds) in
      server ← new_server address d;
      thread_start server;;
      start_each rest
  end.

(** [wait()]: [while 1: time.sleep(1e6)] inside [try ... except KeyboardInterrupt: pass].
    [fuel] bounds the number of sleeps looked at; [None] means the loop is
    still running after that many. *)
Fixpoint wait `{Runtime} (fuel : nat) (w : World) : option (Outcome unit * World) :=
  match fuel with
  | O => None
  | S fuel' =>
      if sleep_interrupted (sleeps w)
      then Some (Returned tt, add_sleep w)
      else wait fuel' (add_sleep w)
  end.

Definition start_servers `{Runtime} (blocking : bool) (fuel : nat) (w : World)
  : option (Outcome unit * World) :=
  match (registry ← __servers None; start_each (map_to_list registry)) w with
  | (Returned _, w') =>
      if blocking then wait fuel w' else Some (Returned tt, w')
  | (Raised e, w') => Some (Raised e, w')
  end.

(** A computation that leaves the registry as it found it. *)
Definition preserves_registry {A : Type} (c : Py A) : Prop :=
  forall w, servers_dict (c w).2 = servers_dict w.

(** No construction of a server raises. *)
Definition servers_bind `{Runtime} : Prop :=
  forall w address d, server_error w address d = None.

(** The servers [start_servers] builds from a registry. *)
Definition server_of (item : string * Z * gmap string Callable) : OSCUDPServer :=
  mkServer item.1 (map_to_list item.2).

Definition thread_of (s : OSCUDPServer) : Thread := mkThread s true.

(** What one turn of the registration loop of [receive] does to the registry. *)
Definition rebind (host : string) (port : Z) (f : Callable)
    (m : __Servers) (a : string) : __Servers :=
  <[ (host, port) := {[ a := f ]} ]> m.

(** The world after [n] more sleeps. *)
Definition slept (n : nat) (w : World) : World :=
  mkWorld (servers_dict w) (debug_log w) (client_calls w) (servers w)
    (threads w) (sleeps w + n)%nat.

(** The world once [start_servers] has gone through [items] without an error. *)
Definition started (items : list (string * Z * gmap string Callable)) (w : World) : World :=
  mkWorld (servers_dict w) (debug_log w) (client_calls w)
    (servers w ++ (server_of <$> items))
    (threads w ++ (thread_of <$> (server_of <$> items))) (sleeps w).

(** ** The program of [test/test.py] *)

Definition test_host : string := "127.0.0.1".
Definition test_port : Z := 19994.

(** The body of [send_something(message)]: [return "/some/addr", message]. *)
Definition send_something_body (args : Args) : Py PyVal :=
  match positional args, keywords args with
  | [message], [] => mret (packet_of "/some/addr" message)
  | [], [(name, message)] =>
      if String.eqb name "message" then mret (packet_of "/some/addr" message)
      else raise TypeError
  | _, _ => raise TypeError
  end.

(** The body of [receive_something(address, message)]: it prints, sleeps on
    the server's thread and calls the decorated [send_something(message)];
    only the call is kept here. *)
Definition receive_something_body (send_error : World -> string -> Z -> PyVal -> option PyExn)
    (args : Args) : Py PyVal :=
  match positional args, keywords args with
  | [address; message], [] =>
      let sender := mkRuntime (fun _ => send_something_body) send_error
                      (fun _ _ _ => None) (fun _ => false) in
      @call sender (SendWrapper test_host test_port (UserFunction "send_something"))
        (pos_args [message]);;
      mret PyNone
  | _, _ => raise TypeError
  end.

Definition test_user_function (send_error : World -> string -> Z -> PyVal -> option PyExn)
    (name : string) (args : Args) : Py PyVal :=
  if String.eqb name "send_something" then send_something_body args
  else if String.eqb name "receive_something" then receive_something_body send_error args
  else raise (OtherError "NameError").

(** A run in which every library call succeeds and Ctrl-C arrives during the
    third sleep. *)
Definition test_runtime : Runtime := {|
  user_function := test_user_function (fun _ _ _ _ => None);
  send_message_error := fun _ _ _ _ => None;
  server_error := fun _ _ _ => None;
  sleep_interrupted := fun n => Nat.eqb n 2
|}.

(** A run in which the network refuses every datagram. *)
Definition offline_runtime : Runtime := {|
  user_function :=
    test_user_function (fun _ _ _ _ => Some (OSError "Network is unreachable"));
  send_message_error := fun _ _ _ _ => Some (OSError "Network is unreachable");
  server_error := fun _ _ _ => None;
  sleep_interrupted := fun _ => false
|}.

(** A run in which the port of every server is already taken. *)
Definition port_taken_runtime : Runtime := {|
  user_function := test_user_function (fun _ _ _ _ => None);
  send_message_error := fun _ _ _ _ => None;
  server_error := fun _ _ _ => Some (OSError "Address already in use");
  sleep_interrupted := fun _ => false
|}.

Definition receive_something : Callable := UserFunction "receive_something".
Definition send_something : Callable :=
  send_decorator (send test_host test_port) (UserFunction "send_something").

(** The message the test sends. *)
Definition hey : PyVal := PyStr "Hey this is something".

(** The world once [receive_something] has been decorated. *)
Definition test_world : World :=
  (receive_decorator
     (mkReceiveDecorator test_host test_port (Some "/some/addr") None)
     receive_something initial_world).2.

(** ** Notions the further properties are stated with *)

(** Every endpoint of the registry is bound to exactly one address. *)
Definition one_binding_each (m : __Servers) : Prop :=
  forall ep binds, m !! ep = Some binds -> exists a f, binds = {[ a := f ]}.

(** The system refuses an endpoint that a server of the process holds. *)
Definition ports_exclusive `{Runtime} : Prop :=
  forall w address d,
    address ∈ (server_address <$> servers w) -> is_Some (server_error w address d).

(** A run on such a system. *)
Definition exclusive_runtime : Runtime := {|
  user_function := test_user_function (fun _ _ _ _ => None);
  send_message_error := fun _ _ _ _ => None;
  server_error := fun w address _ =>
    if bool_decide (address ∈ (server_address <$> servers w))
    then Some (OSError "Address already in use")
    else None;
  sleep_interrupted := fun _ => false
|}.

(** A run in which one port is taken: the server of that port cannot be
    built, the others can. *)
Definition refusing_runtime (port : Z) : Runtime := {|
  user_function := test_user_function (fun _ _ _ _ => None);
  send_message_error := fun _ _ _ _ => None;
  server_error := fun _ address _ =>
    if Z.eqb address.2 port then Some (OSError "Address already in use") else None;
  sleep_interrupted := fun _ => false
|}.

(** Two endpoints, in the order they were registered. *)
Definition two_endpoints : list (string * Z * gmap string Callable) :=
  [((test_host, 19994), {[ "/a" := receive_something ]});
   ((test_host, 19995), {[ "/b" := receive_something ]})].

(** ** [__tests] of [test/test.py] *)

(** The functions [__tests] defines, run against a given network, system and
    keyboard. *)
Definition tests_runtime
    (send_error : World -> string -> Z -> PyVal -> option PyExn)
    (bind_error : World -> string * Z -> Dispatcher -> option PyExn)
    (interrupted : nat -> bool) : Runtime :=
  mkRuntime (test_user_function send_error) send_error bind_error interrupted.

(** [__tests()], as the main thread runs it: [logging.basicConfig] changes
    nothing that is modelled, the two functions are decorated, the servers
    are started, one message is sent and the thread waits.  What the server
    threads do with the message is not part of it. *)
Definition __tests `{Runtime} (fuel : nat) (w : World) : option (Outcome unit * World) :=
  match receive test_host test_port (Some "/some/addr") None with
  | inl e => Some (Raised e, w)
  | inr decorator =>
      match receive_decorator decorator (UserFunction "receive_something") w with
      | (Raised e, w1) => Some (Raised e, w1)
      | (Returned _, w1) =>
          let send_something :=
            send_decorator (send test_host test_port) (UserFunction "send_something") in
          match start_servers false fuel w1 with
          | Some (Returned _, w2) =>
              match call send_something (pos_args [PyStr "Hey this is something"]) w2 with
              | (Returned _, w3) => wait fuel w3
              | (Raised e, w3) => Some (Raised e, w3)
              end
          | other => other
          end
      end
  end.

(** * The OSC codec of the specification *)

Module Codec.

Local Open Scope Z_scope.

(** Modelled from the spec: the codec ([encode], [decode]) and its data
    model.  The repository holds no codec; it hands every packet to the
    [pythonosc] library.  What follows is section 3 and section 4.1 of the
    specification, with the blob size prefix and the array brackets of OSC 1.0
    that the specification's "OSC-compliant" refers to. *)
Inductive Argument : Type :=
| Int32 (n : Z)
| Float32 (bits : Z)
| Str (s : string)
| Blob (b : list byte)
| Boolean (b : bool)
| Nil
| Array (items : list Argument).

Record Message : Type := mkMessage {
  address : string;
  arguments : list Argument
}.

Inductive Packet : Type :=
| AMessage (m : Message)
| ABundle (timetag : Z) (elements : list Packet).

Inductive EncodeError : Type :=
| InvalidArgument
| EmbeddedNull.

Inductive DecodeError : Type :=
| Truncated
| UnknownTypeTag (tag : ascii)
| Malformed.

Inductive Result (E A : Type) : Type :=
| Ok (a : A)
| Err (e : E).
Arguments Ok {E A} a.
Arguments Err {E A} e.

#[export] Instance Result_ret {E} : MRet (Result E) := fun A a => Ok a.

#[export] Instance Result_bind {E} : MBind (Result E) := fun A B k r =>
  match r with
  | Ok a => k a
  | Err e => Err e
  end.

(** *** Bytes and 32-bit words, big-endian *)

#[export] Instance byte_eq_decision : EqDecision byte := Byte.byte_eq_dec.

Definition byte_of_Z (z : Z) : byte :=
  default x00 (Byte.of_N (Z.to_N (z mod 256))).

Definition Z_of_byte (b : byte) : Z := Z.of_N (Byte.to_N b).

Definition be32 (u : Z) : list byte :=
  [byte_of_Z (u / 16777216); byte_of_Z (u / 65536); byte_of_Z (u / 256); byte_of_Z u].

Definition u32_of_bytes (b0 b1 b2 b3 : byte) : Z :=
  ((Z_of_byte b0 * 256 + Z_of_byte b1) * 256 + Z_of_byte b2) * 256 + Z_of_byte b3.

(** Two's complement. *)
Definition encode_int32 (n : Z) : list byte := be32 (n mod 4294967296).

Definition int32_of_u32 (u : Z) : Z :=
  if u <? 2147483648 then u else u - 4294967296.

Definition read_u32 (bs : list byte) : Result DecodeError (Z * list byte) :=
  match bs with
  | b0 :: b1 :: b2 :: b3 :: rest => Ok (u32_of_bytes b0 b1 b2 b3, rest)
  | _ => Err Truncated
  end.

(** *** Strings and blobs, padded to four bytes *)

(** Null bytes needed after [n] bytes to reach a multiple of four. *)
Definition padding (n : nat) : nat := ((4 - n mod 4) mod 4)%nat.

Definition osc_string (s : string) : list byte :=
  let body := list_byte_of_string s in
  body ++ x00 :: replicate (padding (S (length body))) x00.

Definition osc_blob (b : list byte) : list byte :=
  encode_int32 (Z.of_nat (length b)) ++ b ++ replicate (padding (length b)) x00.

Definition has_null (s : string) : bool :=
  existsb (Byte.eqb x00) (list_byte_of_string s).

(** The bytes before the first null. *)
Fixpoint until_null (bs : list byte) : option (list byte) :=
  match bs with
  | [] => None
  | b :: rest =>
      if Byte.eqb x00 b then Some [] else cons b <$> until_null rest
  end.

(** Padding bytes are skipped, whatever they hold. *)
Definition read_string (bs : list byte) : Result DecodeError (string * list byte) :=
  match until_null bs with
  | None => Err Truncated
  | Some body =>
      let n := (S (length body) + padding (S (length body)))%nat in
      if decide (n <= length bs)%nat
      then Ok (string_of_list_byte body, drop n bs)
      else Err Truncated
  end.

Definition read_blob (bs : list byte) : Result DecodeError (list byte * list byte) :=
  '(u, rest) ← read_u32 bs;
  let size := int32_of_u32 u in
  if size <? 0 then Err Malformed
  else
    let n := Z.to_nat size in
    if decide (n + padding n <= length rest)%nat
    then Ok (take n rest, drop (n + padding n)%nat rest)
    else Err Truncated.

(** *** Type tags and payloads *)

Fixpoint arg_tags (a : Argument) : list ascii :=
  match a with
  | Int32 _ => ["i"%char]
  | Float32 _ => ["f"%char]
  | Str _ => ["s"%char]
  | Blob _ => ["b"%char]
  | Boolean true => ["T"%char]
  | Boolean false => ["F"%char]
  | Nil => ["N"%char]
  | Array items => "["%char :: flat_map arg_tags items ++ ["]"%char]
  end.

Fixpoint arg_payload (a : Argument) : list byte :=
  match a with
  | Int32 n => encode_int32 n
  | Float32 bits => be32 bits
  | Str s => osc_string s
  | Blob b => osc_blob b
  | Boolean _ | Nil => []
  | Array items => flat_map arg_payload items
  end.

(** What [encode] refuses in an argument. *)
Fixpoint arg_error (a : Argument) : option EncodeError :=
  match a with
  | Int32 n =>
      if (-2147483648 <=? n) && (n <? 2147483648) then None else Some InvalidArgument
  | Float32 bits =>
      if (0 <=? bits) && (bits <? 4294967296) then None else Some InvalidArgument
  | Str s => if has_null s then Some EmbeddedNull else None
  | Blob b =>
      if Z.of_nat (length b) <? 2147483648 then None else Some InvalidArgument
  | Boolean _ | Nil => None
  | Array items =>
      (fix first (l : list Argument) : option EncodeError :=
         match l with
         | [] => None
         | x :: rest =>
             match arg_error x with
             | Some e => Some e
             | None => first rest
             end
         end) items
  end.

Definition args_error (l : list Argument) : option EncodeError :=
  arg_error (Array l).

(** *** [encode] *)

Definition encode (m : Message) : Result EncodeError (list byte) :=
  if has_null (address m) then Err EmbeddedNull
  else
    match args_error (arguments m) with
    | Some e => Err e
    | None =>
        Ok (osc_string (address m)
            ++ osc_string (string_of_list_ascii (","%char :: flat_map arg_tags (arguments m)))
            ++ flat_map arg_payload (arguments m))
    end.

(** *** [decode] *)

(** The arguments named by the tags, read off the buffer; [stack] holds the
    arrays still open, outermost last, and [cur] the arguments of the
    innermost one, latest first. *)
Fixpoint read_args (tags : list ascii) (bs : list byte)
    (stack : list (list Argument)) (cur : list Argument)
  : Result DecodeError (list Argument) :=
  match tags with
  | [] =>
      match stack with
      | [] => Ok (rev cur)
      | _ :: _ => Err Malformed
      end
  | tag :: tags' =>
      if Ascii.eqb tag "i" then
        '(u, rest) ← read_u32 bs;
        read_args tags' rest stack (Int32 (int32_of_u32 u) :: cur)
      else if Ascii.eqb tag "f" then
        '(u, rest) ← read_u32 bs;
        read_args tags' rest stack (Float32 u :: cur)
      else if Ascii.eqb tag "s" then
        '(s, rest) ← read_string bs;
        read_args tags' rest stack (Str s :: cur)
      else if Ascii.eqb tag "b" then
        '(b, rest) ← read_blob bs;
        read_args tags' rest stack (Blob b :: cur)
      else if Ascii.eqb tag "T" then read_args tags' bs stack (Boolean true :: cur)
      else if Ascii.eqb tag "F" then read_args tags' bs stack (Boolean false :: cur)
      else if Ascii.eqb tag "N" then read_args tags' bs stack (Nil :: cur)
      else if Ascii.eqb tag "[" then read_args tags' bs (cur :: stack) []
      else if Ascii.eqb tag "]" then
        match stack with
        | outer :: stack' => read_args tags' bs stack' (Array (rev cur) :: outer)
        | [] => Err Malformed
        end
      else Err (UnknownTypeTag tag)
  end.

Definition decode_message (bs : list byte) : Result DecodeError Message :=
  '(addr, rest) ← read_string bs;
  '(tagstr, rest) ← read_string rest;
  match list_ascii_of_string tagstr with
  | tag :: tags =>
      if Ascii.eqb tag "," then
        args ← read_args tags rest [] [];
        Ok (mkMessage addr args)
      else Err Malformed
  | [] => Err Malformed
  end.

(** The literal [#bundle] and its null. *)
Definition bundle_marker : list byte := list_byte_of_string "#bundle" ++ [x00].

Definition is_bundle (bs : list byte) : bool :=
  bool_decide (take 8 bs = bundle_marker).

Definition read_timetag (bs : list byte) : Result DecodeError (Z * list byte) :=
  '(hi, rest) ← read_u32 bs;
  '(lo, rest) ← read_u32 rest;
  Ok (hi * 4294967296 + lo, rest).

(** [fuel] bounds the nesting of bundles and the number of elements. *)
Fixpoint decode_fuel (fuel : nat) (bs : list byte) : Result DecodeError Packet :=
  match fuel with
  | O => Err Malformed
  | S fuel' =>
      if is_bundle bs then
        '(timetag, rest) ← read_timetag (drop 8 bs);
        elements ← decode_elements fuel' rest;
        Ok (ABundle timetag elements)
      else m ← decode_message bs; Ok (AMessage m)
  end
with decode_elements (fuel : nat) (bs : list byte) : Result DecodeError (list Packet) :=
  match fuel with
  | O => Err Malformed
  | S fuel' =>
      match bs with
      | [] => Ok []
      | _ :: _ =>
          '(u, rest) ← read_u32 bs;
          let size := int32_of_u32 u in
          if size <? 0 then Err Malformed
          else if decide (Z.to_nat size <= length rest)%nat then
            element ← decode_fuel fuel' (take (Z.to_nat size) rest);
            elements ← decode_elements fuel' (drop (Z.to_nat size) rest);
            Ok (element :: elements)
          else Err Truncated
      end
  end.

Definition decode (bs : list byte) : Result DecodeError Packet :=
  decode_fuel (S (length bs)) bs.

(** *** Representable messages (section 3) *)

Definition is_ascii (b : byte) : bool := Z_of_byte b <? 128.

Definition address_ok (s : string) : bool :=
  match list_byte_of_string s with
  | first :: _ => Byte.eqb first x2f
  | [] => false
  end
  && forallb is_ascii (list_byte_of_string s)
  && negb (has_null s).

Fixpoint arg_ok (a : Argument) : bool :=
  match a with
  | Int32 n => (-2147483648 <=? n) && (n <? 2147483648)
  | Float32 bits => (0 <=? bits) && (bits <? 4294967296)
  | Str s => negb (has_null s)
  | Blob b => Z.of_nat (length b) <? 2147483648
  | Boolean _ | Nil => true
  | Array items => forallb arg_ok items
  end.

Definition representable (m : Message) : bool :=
  address_ok (address m) && forallb arg_ok (arguments m).

(** *** What the round trip is proved through *)

(** Reading the tags and the payload of [a] puts [a] on top of what was read. *)
Definition reads_back (a : Argument) : Prop :=
  arg_ok a = true ->
  forall ts bs stack cur,
    read_args (arg_tags a ++ ts) (arg_payload a ++ bs) stack cur
    = read_args ts bs stack (a :: cur).

(** No tag is the null character. *)
Definition not_null (c : ascii) : bool := negb (Byte.eqb x00 (byte_of_ascii c)).

(** The message of the end-to-end scenario (section 8). *)
Definition scenario_message : Message :=
  mkMessage "/some/addr" [Str "Hey this is something"].

End Codec.

(* ================================================================== *)
(** * Properties *)

Ltac py_unfold :=
  unfold __servers, logging_debug, send_message, new_server, thread_start,
    modify_world, get_world, raise, mbind, mret, Py_bind, Py_ret in *.

Section Registry.

Lemma servers_read (w : World) :
  __servers None w = (Returned (servers_dict w), w).
Proof. reflexivity. Qed.

Lemma servers_update (u : __Servers) (w : World) :
  __servers (Some u) w =
    (Returned (u ∪ servers_dict w), set_servers_dict (u ∪ servers_dict w) w).
Proof. reflexivity. Qed.

(** Rebinding an endpoint drops what was bound to it before. *)
Lemma update_singleton (k : string * Z) (b : gmap string Callable) (m : __Servers) :
  {[ k := b ]} ∪ m = <[ k := b ]> m.
Proof. symmetry. apply insert_union_singleton_l. Qed.

Lemma register_addresses_run host port f _addrs w :
  register_addresses host port f _addrs w =
    (Returned tt,
     set_servers_dict (foldl (rebind host port f) (servers_dict w) _addrs) w).
Proof.
  revert w. induction _addrs as [|a rest IH]; intros w.
  - destruct w; reflexivity.
  - cbn [register_addresses foldl]. unfold mbind, Py_bind.
    rewrite servers_update, IH. cbn. rewrite update_singleton. reflexivity.
Qed.

Lemma rebind_last host port f m _addrs a :
  foldl (rebind host port f) m (_addrs ++ [a]) = <[ (host, port) := {[ a := f ]} ]> m.
Proof.
  rewrite foldl_app. cbn. unfold rebind at 1.
  revert m. induction _addrs as [|x rest IH]; intros m; cbn.
  - reflexivity.
  - rewrite IH. unfold rebind. apply insert_insert_eq.
Qed.

Lemma receive_decorator_run d f w :
  receive_decorator d f w =
    (Returned (ReceiveWrapper f),
     set_servers_dict
       (foldl (rebind (rd_host d) (rd_port d) f) (servers_dict w)
          (consolidate (rd_address d) (rd_addresses d))) w).
Proof.
  unfold receive_decorator, mbind, Py_bind. rewrite register_addresses_run.
  reflexivity.
Qed.

End Registry.

Section Receive.
Context `{RT : Runtime}.

(** A closure is never the function it closes over. *)
Lemma receive_wrapper_fresh (f : Callable) : ReceiveWrapper f ≠ f.
Proof. induction f as [name|host port f IH|f IH]; congruence. Qed.

Lemma consolidate_address a addresses :
  consolidate (Some a) addresses = a :: default [] addresses.
Proof. destruct addresses; reflexivity. Qed.

Lemma consolidate_addresses l :
  consolidate None (Some l) = l.
Proof. reflexivity. Qed.

(** C1 (the code departs from it): one [receive] with [addresses=[a, b]],
    and two [receive] decorations for [a] and then [b], both leave the
    endpoint bound to the single entry [b]; the binding of [a] is replaced,
    not kept, so a lookup of [a] finds nothing when [a] differs from [b]. *)
Theorem receive_same_endpoint_keeps_last host port (a b : string) (f g : Callable) (w : World) :
  (exists d w1,
      receive host port None (Some [a; b]) = inr d /\
      receive_decorator d f w = (Returned (ReceiveWrapper f), w1) /\
      servers_dict w1 !! (host, port) = Some {[ b := f ]}) /\
  (exists d1 d2 w1 w2,
      receive host port (Some a) None = inr d1 /\
      receive host port (Some b) None = inr d2 /\
      receive_decorator d1 f w = (Returned (ReceiveWrapper f), w1) /\
      receive_decorator d2 g w1 = (Returned (ReceiveWrapper g), w2) /\
      servers_dict w2 !! (host, port) = Some {[ b := g ]}) /\
  (a <> b -> forall c : Callable, ({[ b := c ]} : gmap string Callable) !! a = None).
Proof.
  split; [|split]; [| |intros Hab c; apply lookup_singleton_ne; congruence].
  - eexists _, _. split; [reflexivity|]. split.
    + apply receive_decorator_run.
    + cbn. unfold rebind. apply lookup_insert_eq.
  - eexists _, _, _, _. split; [reflexivity|]. split; [reflexivity|].
    split; [apply receive_decorator_run|]. split; [apply receive_decorator_run|].
    cbn. unfold rebind. apply lookup_insert_eq.
Qed.

(** C9: [receive] with neither [address] nor [addresses] raises
    [ValueError] and yields no decorator; with either of them given it
    yields a decorator, and applying that decorator to a function returns
    without raising. *)
Theorem receive_requires_an_address host port :
  receive host port None None = inl (ValueError "Must specify an address.") /\
  (forall address addresses,
      is_Some address \/ is_Some addresses ->
      exists d,
        receive host port address addresses = inr d /\
        forall f w, exists w', receive_decorator d f w = (Returned (ReceiveWrapper f), w')).
Proof.
  split; [reflexivity|].
  intros address addresses Hgiven.
  exists (mkReceiveDecorator host port address addresses). split.
  - destruct address, addresses; try reflexivity.
    destruct Hgiven as [[? ?]|[? ?]]; discriminate.
  - intros f w. eexists. apply receive_decorator_run.
Qed.

(** C10: called with an address alone the wrapper of [receive] calls [f]
    with that address and [None]; whenever the call fits the wrapper's
    signature, its outcome is the outcome of [f(addr, message)], and a call
    that does not fit raises [TypeError] before [f] is reached. *)
Theorem receive_wrapper_calls_f (f : Callable) (w : World) :
  (forall addr,
      call (ReceiveWrapper f) (pos_args [addr]) w = call f (pos_args [addr; PyNone]) w) /\
  (forall addr message,
      call (ReceiveWrapper f) (pos_args [addr; message]) w
      = call f (pos_args [addr; message]) w) /\
  (forall args addr message,
      bind_addr_message args = Some (addr, message) ->
      call (ReceiveWrapper f) args w = call f (pos_args [addr; message]) w) /\
  (forall args,
      bind_addr_message args = None ->
      call (ReceiveWrapper f) args w = (Raised TypeError, w)).
Proof.
  split; [|split; [|split]].
  - intros addr. reflexivity.
  - intros addr message. reflexivity.
  - intros args addr message Hbind. cbn [call]. rewrite Hbind. reflexivity.
  - intros args Hbind. cbn [call]. rewrite Hbind. reflexivity.
Qed.

(** The keyword forms of the call: [wrapper(addr=a)] and
    [wrapper(a, message=m)]. *)
Lemma receive_wrapper_keywords (f : Callable) (a m : PyVal) (w : World) :
  call (ReceiveWrapper f) (mkArgs [] [("addr", a)]) w = call f (pos_args [a; PyNone]) w /\
  call (ReceiveWrapper f) (mkArgs [a] [("message", m)]) w = call f (pos_args [a; m]) w /\
  call (ReceiveWrapper f) (mkArgs [a] [("addr", a)]) w = (Raised TypeError, w) /\
  call (ReceiveWrapper f) (pos_args [a; m; m]) w = (Raised TypeError, w).
Proof. repeat split. Qed.

End Receive.

Section Send.
Context `{RT : Runtime}.

(** The wrapper of [send], once [f] has returned its packet. *)
Lemma send_wrapper_run host port f args w packet w1 :
  call f args w = (Returned packet, w1) ->
  let w1' := add_debug (mkDebug packet host port) w1 in
  let err := send_message_error w1' host port packet in
  call (SendWrapper host port f) args w =
    (match err with None => Returned packet | Some e => Raised e end,
     add_client_call (mkClientCall host port packet err) w1').
Proof.
  intros Hf. cbn [call]. py_unfold. rewrite Hf. cbn.
  destruct (send_message_error _ host port packet); reflexivity.
Qed.

(** An exception of [f] leaves the wrapper before it logs or sends. *)
Lemma send_wrapper_raises host port f args w e w1 :
  call f args w = (Raised e, w1) ->
  call (SendWrapper host port f) args w = (Raised e, w1).
Proof. intros Hf. cbn [call]. py_unfold. rewrite Hf. reflexivity. Qed.

(** C3: one invocation of a function wrapped by [send(host, port)] makes
    exactly one client call, addressed to [(host, port)] and carrying the
    packet [f] returned: the record of client calls grows by that single
    entry whether the call raised or not, so nothing is retried. *)
Theorem send_wrapper_single_attempt host port f args w packet w1 :
  call f args w = (Returned packet, w1) ->
  exists err w2 outcome,
    call (SendWrapper host port f) args w = (outcome, w2) /\
    client_calls w2 = client_calls w1 ++ [mkClientCall host port packet err] /\
    length (client_calls w2) = S (length (client_calls w1)) /\
    (outcome = Returned packet <-> err = None) /\
    (forall e, outcome = Raised e <-> err = Some e).
Proof.
  intros Hf. pose proof (send_wrapper_run host port f args w packet w1 Hf) as Hrun.
  cbv zeta in Hrun.
  set (err := send_message_error _ host port packet) in Hrun.
  exists err. eexists _, _. split; [exact Hrun|].
  split; [reflexivity|]. split.
  - cbn. rewrite length_app. cbn. lia.
  - destruct err as [e'|]; split; try split; intros; congruence.
Qed.

(** C4, as amended: the wrapper calls [f] with the arguments it was given,
    hands the packet [f] returned to the client for [(host, port)], and,
    when the client call does not raise, returns that very packet. *)
Theorem send_wrapper_returns_packet host port f args w packet w1 :
  call f args w = (Returned packet, w1) ->
  send_message_error (add_debug (mkDebug packet host port) w1) host port packet = None ->
  call (SendWrapper host port f) args w =
    (Returned packet,
     add_client_call (mkClientCall host port packet None)
       (add_debug (mkDebug packet host port) w1)).
Proof.
  intros Hf Hsend. rewrite (send_wrapper_run host port f args w packet w1 Hf).
  cbv zeta. rewrite Hsend. reflexivity.
Qed.

End Send.

Section StartServers.
Context `{RT : Runtime}.

Lemma map_binds_app (d : Dispatcher) (binds : list (string * Callable)) :
  map_binds d binds = d ++ binds.
Proof.
  revert d. induction binds as [|[a c] rest IH]; intros d.
  - cbn. rewrite app_nil_r. reflexivity.
  - cbn [map_binds foldl]. fold (map_binds (dispatcher_map d a c) rest).
    rewrite IH. unfold dispatcher_map. rewrite <- app_assoc. reflexivity.
Qed.

Lemma started_nil w : started [] w = w.
Proof. destruct w. unfold started. cbn. rewrite !app_nil_r. reflexivity. Qed.

Lemma started_cons item items w :
  started items (add_thread (thread_of (server_of item)) (add_server (server_of item) w))
  = started (item :: items) w.
Proof. unfold started. cbn. rewrite <- !app_assoc. reflexivity. Qed.

Lemma start_each_run (Hok : servers_bind) items w :
  start_each items w = (Returned tt, started items w).
Proof.
  revert w. induction items as [|[address binds] rest IH]; intros w.
  - rewrite started_nil. reflexivity.
  - cbn [start_each]. py_unfold. rewrite Hok. cbn.
    rewrite IH. rewrite map_binds_app. cbn.
    rewrite <- started_cons. reflexivity.
Qed.

(** Whatever the library answers, the servers built are those of a prefix
    of the registry's items, each with its thread. *)
Lemma start_each_prefix items w :
  exists k outcome,
    (k <= length items)%nat /\
    start_each items w = (outcome, started (take k items) w) /\
    (outcome = Returned tt <-> k = length items).
Proof.
  revert w. induction items as [|[address binds] rest IH]; intros w.
  - exists 0%nat, (Returned tt). cbn. rewrite started_nil. repeat split; auto.
  - cbn [start_each]. py_unfold.
    destruct (server_error w address _) as [e|] eqn:Herr.
    + exists 0%nat, (Raised e). cbn. rewrite started_nil.
      split; [lia|]. split; [reflexivity|]. split; [discriminate|lia].
    + cbn. rewrite map_binds_app. cbn.
      destruct (IH (add_thread (mkThread (mkServer address (map_to_list binds)) true)
                      (add_server (mkServer address (map_to_list binds)) w)))
        as (k & outcome & Hk & Hrun & Hout).
      exists (S k), outcome. split; [cbn; lia|]. split.
      * rewrite Hrun. cbn [take]. rewrite <- started_cons. reflexivity.
      * rewrite Hout. cbn. lia.
Qed.

Lemma wait_running fuel w :
  (forall i, (i < fuel)%nat -> sleep_interrupted (sleeps w + i)%nat = false) ->
  wait fuel w = None.
Proof.
  revert w. induction fuel as [|fuel IH]; intros w Hquiet; [reflexivity|].
  cbn [wait]. pose proof (Hquiet 0%nat ltac:(lia)) as H0.
  rewrite Nat.add_0_r in H0. rewrite H0. apply IH.
  intros i Hi. cbn. replace (S (sleeps w + i))%nat with (sleeps w + S i)%nat by lia.
  apply Hquiet. lia.
Qed.

Lemma wait_interrupted n w fuel :
  sleep_interrupted (sleeps w + n)%nat = true ->
  (forall i, (i < n)%nat -> sleep_interrupted (sleeps w + i)%nat = false) ->
  (n < fuel)%nat ->
  wait fuel w = Some (Returned tt, slept (S n) w).
Proof.
  revert w fuel. induction n as [|n IH]; intros w fuel Hint Hquiet Hfuel.
  - destruct fuel as [|fuel]; [lia|]. cbn [wait].
    rewrite Nat.add_0_r in Hint. rewrite Hint.
    unfold slept, add_sleep. do 3 f_equal. lia.
  - destruct fuel as [|fuel]; [lia|]. cbn [wait].
    pose proof (Hquiet 0%nat ltac:(lia)) as H0.
    rewrite Nat.add_0_r in H0. rewrite H0.
    rewrite (IH (add_sleep w) fuel).
    + unfold slept, add_sleep. cbn. do 3 f_equal. lia.
    + cbn. replace (S (sleeps w + n))%nat with (sleeps w + S n)%nat by lia. exact Hint.
    + intros i Hi. cbn.
      replace (S (sleeps w + i))%nat with (sleeps w + S i)%nat by lia.
      apply Hquiet. lia.
    + lia.
Qed.

Lemma wait_registry fuel w outcome w' :
  wait fuel w = Some (outcome, w') -> servers_dict w' = servers_dict w.
Proof.
  revert w. induction fuel as [|fuel IH]; intros w; [discriminate|].
  cbn [wait]. destruct (sleep_interrupted (sleeps w)).
  - intros [= <- <-]. reflexivity.
  - intros Hw. apply IH in Hw. exact Hw.
Qed.

Lemma start_servers_setup blocking fuel w :
  start_servers blocking fuel w =
    match start_each (map_to_list (servers_dict w)) w with
    | (Returned _, w') => if blocking then wait fuel w' else Some (Returned tt, w')
    | (Raised e, w') => Some (Raised e, w')
    end.
Proof. reflexivity. Qed.

End StartServers.

Section Lifecycle.
Context `{RT : Runtime}.

Lemma start_each_registry items w :
  servers_dict (start_each items w).2 = servers_dict w.
Proof.
  destruct (start_each_prefix items w) as (k & outcome & _ & Hrun & _).
  rewrite Hrun. reflexivity.
Qed.

Lemma start_servers_registry blocking fuel w outcome w' :
  start_servers blocking fuel w = Some (outcome, w') ->
  servers_dict w' = servers_dict w.
Proof.
  rewrite start_servers_setup.
  pose proof (start_each_registry (map_to_list (servers_dict w)) w) as Hreg.
  destruct (start_each _ w) as [[[]|e] w1]; cbn in Hreg.
  - destruct blocking.
    + intros Hwait. apply wait_registry in Hwait. congruence.
    + intros [= <- <-]. exact Hreg.
  - intros [= <- <-]. exact Hreg.
Qed.

Lemma call_registry c args :
  (forall name args', preserves_registry (user_function name args')) ->
  preserves_registry (call c args).
Proof.
  intros Huser. revert args.
  induction c as [name|host port f IH|f IH]; intros args w.
  - apply Huser.
  - cbn [call]. py_unfold. specialize (IH args w).
    destruct (call f args w) as [[packet|e] w1]; cbn in IH |- *; [|exact IH].
    destruct (send_message_error _ host port packet); cbn; exact IH.
  - cbn [call]. destruct (bind_addr_message args) as [[addr message]|].
    + apply IH.
    + reflexivity.
Qed.

(** C7: a call of [__servers] without an update returns the stored mapping
    and changes nothing; a call with an update is what changes it;
    [start_servers] and every function object the module builds leave it
    as it is (user code permitting), so a later read still finds what the
    last update stored. *)
Theorem servers_read_is_pure (w : World) :
  __servers None w = (Returned (servers_dict w), w) /\
  (forall u, __servers (Some u) w =
             (Returned (u ∪ servers_dict w), set_servers_dict (u ∪ servers_dict w) w)) /\
  (forall blocking fuel outcome w',
      start_servers blocking fuel w = Some (outcome, w') ->
      __servers None w' = (Returned (servers_dict w), w')) /\
  (forall c args,
      (forall name args', preserves_registry (user_function name args')) ->
      __servers None (call c args w).2 = (Returned (servers_dict w), (call c args w).2)).
Proof.
  split; [reflexivity|]. split; [reflexivity|]. split.
  - intros blocking fuel outcome w' Hrun. rewrite servers_read.
    rewrite (start_servers_registry _ _ _ _ _ Hrun). reflexivity.
  - intros c args Huser. rewrite servers_read.
    rewrite (call_registry c args Huser w). reflexivity.
Qed.

Lemma start_servers_nonblocking (Hok : servers_bind) fuel w :
  start_servers false fuel w
  = Some (Returned tt, started (map_to_list (servers_dict w)) w).
Proof. rewrite start_servers_setup, (start_each_run Hok). reflexivity. Qed.

Lemma server_of_address (items : list (string * Z * gmap string Callable)) :
  server_address <$> (server_of <$> items) = items.*1.
Proof. induction items as [|[] ? IH]; cbn; [|rewrite IH]; reflexivity. Qed.

(** C2, as amended: when no server construction raises, [start_servers] builds, for
    each key of the registry, one server bound to that key whose dispatcher
    holds exactly the bindings stored under the key, and one daemon thread
    for it; no two of the servers share an endpoint and none is built for
    an endpoint outside the registry. *)
Theorem start_servers_one_server_per_endpoint (Hok : servers_bind) (w : World) :
  exists new,
    (forall fuel, start_servers false fuel w =
       Some (Returned tt,
             mkWorld (servers_dict w) (debug_log w) (client_calls w)
               (servers w ++ new) (threads w ++ (thread_of <$> new)) (sleeps w))) /\
    length new = size (servers_dict w) /\
    NoDup (server_address <$> new) /\
    (forall address binds,
        servers_dict w !! address = Some binds ->
        mkServer address (map_to_list binds) ∈ new) /\
    (forall s, s ∈ new ->
        exists binds,
          servers_dict w !! server_address s = Some binds /\
          forall a c, (a, c) ∈ server_dispatcher s <-> binds !! a = Some c).
Proof.
  exists (server_of <$> map_to_list (servers_dict w)).
  split; [intros fuel; apply (start_servers_nonblocking Hok)|].
  split; [rewrite length_fmap; apply length_map_to_list|].
  split; [rewrite server_of_address; apply NoDup_fst_map_to_list|].
  split.
  - intros address binds Hlook.
    apply (list_elem_of_fmap_2 server_of _ (address, binds)).
    apply elem_of_map_to_list. exact Hlook.
  - intros s Hs. apply list_elem_of_fmap in Hs as ([address binds] & -> & Hin).
    apply elem_of_map_to_list in Hin. exists binds. split; [exact Hin|].
    intros a c. cbn. apply elem_of_map_to_list.
Qed.

(** C5, as amended: when no server construction raises, [start_servers(blocking=False)]
    returns once every server is started, whatever the registry holds;
    [start_servers(blocking=True)] has not returned as long as no sleep of
    [wait] was interrupted, and returns normally at the first sleep that a
    [KeyboardInterrupt] cuts short. *)
Theorem start_servers_blocking (Hok : servers_bind) (w : World) :
  let w1 := started (map_to_list (servers_dict w)) w in
  (forall fuel, start_servers false fuel w = Some (Returned tt, w1)) /\
  (forall fuel,
      (forall i, (i < fuel)%nat -> sleep_interrupted (sleeps w + i)%nat = false) ->
      start_servers true fuel w = None) /\
  (forall n fuel,
      sleep_interrupted (sleeps w + n)%nat = true ->
      (forall i, (i < n)%nat -> sleep_interrupted (sleeps w + i)%nat = false) ->
      (n < fuel)%nat ->
      start_servers true fuel w = Some (Returned tt, slept (S n) w1)).
Proof.
  cbv zeta. split; [intros fuel; apply (start_servers_nonblocking Hok)|]. split.
  - intros fuel Hquiet. rewrite start_servers_setup, (start_each_run Hok).
    apply wait_running. exact Hquiet.
  - intros n fuel Hint Hquiet Hfuel.
    rewrite start_servers_setup, (start_each_run Hok).
    apply wait_interrupted; assumption.
Qed.

(** C8: the decorator of [receive] returns a wrapper but stores [f] itself
    under the endpoint, and the wrapper is a different object; the
    dispatcher [start_servers] then builds for the endpoint maps the
    address to [f], not to the wrapper. *)
Theorem receive_registers_undecorated host port address addresses (f : Callable) a w :
  last (consolidate address addresses) = Some a ->
  exists d w1,
    receive host port address addresses = inr d /\
    receive_decorator d f w = (Returned (ReceiveWrapper f), w1) /\
    ReceiveWrapper f <> f /\
    servers_dict w1 !! (host, port) = Some {[ a := f ]} /\
    (servers_bind ->
     forall fuel, exists w2 new,
       start_servers false fuel w1 = Some (Returned tt, w2) /\
       servers w2 = servers w1 ++ new /\
       mkServer (host, port) [(a, f)] ∈ new /\
       forall s, s ∈ new -> server_address s = (host, port) ->
                 server_dispatcher s = [(a, f)]).
Proof.
  intros Hlast. apply last_Some in Hlast as [front Hfront].
  exists (mkReceiveDecorator host port address addresses). eexists.
  split.
  { destruct address, addresses; try reflexivity. destruct front; discriminate. }
  split; [apply receive_decorator_run|].
  split; [apply receive_wrapper_fresh|].
  cbn [servers_dict set_servers_dict rd_host rd_port rd_address rd_addresses].
  rewrite Hfront, rebind_last.
  split; [apply lookup_insert_eq|].
  intros Hok fuel. eexists _, _.
  split; [apply (start_servers_nonblocking Hok)|].
  split; [reflexivity|].
  cbn [servers_dict set_servers_dict].
  split.
  - apply list_elem_of_fmap. exists ((host, port), {[ a := f ]}). split.
    + unfold server_of. cbn. rewrite map_to_list_singleton. reflexivity.
    + apply elem_of_map_to_list, lookup_insert_eq.
  - intros s Hs Haddr.
    apply list_elem_of_fmap in Hs as ([address' binds] & -> & Hin).
    apply elem_of_map_to_list in Hin. cbn in Haddr. subst address'.
    rewrite lookup_insert_eq in Hin. injection Hin as <-.
    unfold server_of. cbn. rewrite map_to_list_singleton. reflexivity.
Qed.

Lemma wait_returns_normally fuel w outcome w' :
  wait fuel w = Some (outcome, w') -> outcome = Returned tt.
Proof.
  revert w. induction fuel as [|fuel IH]; intros w; [discriminate|].
  cbn [wait]. destruct (sleep_interrupted (sleeps w)).
  - intros [= <- <-]. reflexivity.
  - apply IH.
Qed.

(** Without [blocking], [start_servers] always comes back to its caller,
    with its result or with the exception of a server that could not be
    built. *)
Theorem start_servers_nonblocking_total fuel w :
  exists outcome w', start_servers false fuel w = Some (outcome, w').
Proof.
  rewrite start_servers_setup.
  destruct (start_each _ w) as [[[]|e] w1]; eexists _, _; reflexivity.
Qed.

(** In whatever order the items of the registry are gone through: when the
    loop of [start_servers] ends with an exception, it is the exception the
    constructor raised for one of the items; the items gone through before
    that one have their server and thread, that one and the items after it
    have none. *)
Theorem start_each_stops_at_error items w e w' :
  start_each items w = (Raised e, w') ->
  exists k address binds,
    items !! k = Some (address, binds) /\
    w' = started (take k items) w /\
    server_error w' address (map_binds new_dispatcher (map_to_list binds)) = Some e.
Proof.
  revert w. induction items as [|[address binds] rest IH]; intros w; [discriminate|].
  cbn [start_each]. py_unfold.
  destruct (server_error w address (map_binds new_dispatcher (map_to_list binds)))
    as [e0|] eqn:Herr.
  - intros [= <- <-]. exists 0%nat, address, binds.
    cbn [take]. rewrite started_nil. repeat split. exact Herr.
  - cbn. intros Hrest. apply IH in Hrest as (k & address' & binds' & Hk & Hw' & He).
    exists (S k), address', binds'. split; [exact Hk|]. split; [|exact He].
    rewrite Hw'. cbn [take]. rewrite <- started_cons.
    rewrite map_binds_app. reflexivity.
Qed.

End Lifecycle.

(** ** The test program as an instance *)

Section TestProgram.

Lemma send_wrapper_single_attempt_witness :
  (exists err w2 outcome,
      @call test_runtime send_something (pos_args [hey]) initial_world = (outcome, w2) /\
      client_calls w2 =
        client_calls initial_world
        ++ [mkClientCall test_host test_port (packet_of "/some/addr" hey) err] /\
      length (client_calls w2) = S (length (client_calls initial_world)) /\
      (outcome = Returned (packet_of "/some/addr" hey) <-> err = None) /\
      (forall e, outcome = Raised e <-> err = Some e)) /\
  (exists err w2 outcome,
      @call offline_runtime send_something (pos_args [hey]) initial_world = (outcome, w2) /\
      client_calls w2 =
        client_calls initial_world
        ++ [mkClientCall test_host test_port (packet_of "/some/addr" hey) err] /\
      length (client_calls w2) = S (length (client_calls initial_world)) /\
      (outcome = Returned (packet_of "/some/addr" hey) <-> err = None) /\
      (forall e, outcome = Raised e <-> err = Some e)).
Proof.
  split.
  - apply (@send_wrapper_single_attempt test_runtime test_host test_port
             (UserFunction "send_something") (pos_args [hey]) initial_world
             (packet_of "/some/addr" hey) initial_world).
    reflexivity.
  - apply (@send_wrapper_single_attempt offline_runtime test_host test_port
             (UserFunction "send_something") (pos_args [hey]) initial_world
             (packet_of "/some/addr" hey) initial_world).
    reflexivity.
Defined.

(** [receive(test_host, test_port, addresses=["/a", "/b"])] on
    [receive_something]: the endpoint ends up bound to ["/b"] alone. *)
Example receive_two_addresses_example :
  let w1 := (receive_decorator
               (mkReceiveDecorator test_host test_port None (Some ["/a"; "/b"]))
               receive_something initial_world).2 in
  servers_dict w1 = {[ (test_host, test_port) := {[ "/b" := receive_something ]} ]} /\
  (servers_dict w1 !! (test_host, test_port)) ≫= (fun binds => binds !! "/a") = None.
Proof. vm_compute. split; reflexivity. Qed.

Lemma start_each_stops_at_error_witness :
  exists k address binds,
    two_endpoints !! k = Some (address, binds) /\
    started [((test_host, 19994), {[ "/a" := receive_something ]})] initial_world
    = started (take k two_endpoints) initial_world /\
    @server_error (refusing_runtime 19995)
      (started [((test_host, 19994), {[ "/a" := receive_something ]})] initial_world)
      address (map_binds new_dispatcher (map_to_list binds))
    = Some (OSError "Address already in use").
Proof.
  apply (@start_each_stops_at_error (refusing_runtime 19995) two_endpoints initial_world
           (OSError "Address already in use")
           (started [((test_host, 19994), {[ "/a" := receive_something ]})] initial_world)).
  vm_compute. reflexivity.
Defined.

(** C2, as it is stated, fails: the registry of the test program has one
    endpoint, the port is taken, [start_servers] raises and the endpoint is
    left without a server. *)
Lemma start_servers_one_server_per_endpoint_counterexample :
  servers_dict test_world !! (test_host, test_port)
  = Some {[ "/some/addr" := receive_something ]} /\
  @start_servers port_taken_runtime false 0 test_world
  = Some (Raised (OSError "Address already in use"), test_world) /\
  servers test_world = [] /\
  threads test_world = [].
Proof. vm_compute. repeat split. Qed.

(** C4, as it is stated, fails: [send_something] returns its pair, the
    network refuses the datagram, and the wrapper raises instead of
    returning the pair. *)
Lemma send_wrapper_returns_packet_counterexample :
  @call offline_runtime (UserFunction "send_something") (pos_args [hey]) initial_world
  = (Returned (packet_of "/some/addr" hey), initial_world) /\
  (@call offline_runtime send_something (pos_args [hey]) initial_world).1
  = Raised (OSError "Network is unreachable").
Proof. vm_compute. split; reflexivity. Qed.

(** C5, as it is stated, fails: with the port taken and no interrupt ever
    arriving, [start_servers(blocking=True)] comes back at once, with the
    constructor's exception and without a single sleep, and
    [start_servers(blocking=False)] raises too, with no server started. *)
Lemma start_servers_blocking_counterexample :
  (forall n, @sleep_interrupted port_taken_runtime n = false) /\
  @start_servers port_taken_runtime true 5 test_world
  = Some (Raised (OSError "Address already in use"), test_world) /\
  @start_servers port_taken_runtime false 5 test_world
  = Some (Raised (OSError "Address already in use"), test_world) /\
  sleeps test_world = 0%nat /\
  servers test_world = [].
Proof. split; [reflexivity|]. vm_compute. repeat split. Qed.

Lemma send_wrapper_returns_packet_witness :
  @call test_runtime send_something (pos_args [hey]) initial_world =
    (Returned (packet_of "/some/addr" hey),
     add_client_call
       (mkClientCall test_host test_port (packet_of "/some/addr" hey) None)
       (add_debug (mkDebug (packet_of "/some/addr" hey) test_host test_port)
          initial_world)).
Proof.
  apply (@send_wrapper_returns_packet test_runtime test_host test_port
           (UserFunction "send_something") (pos_args [hey]) initial_world
           (packet_of "/some/addr" hey) initial_world); reflexivity.
Defined.

Lemma start_servers_one_server_per_endpoint_witness :
  exists new,
    (forall fuel, @start_servers test_runtime false fuel test_world =
       Some (Returned tt,
             mkWorld (servers_dict test_world) (debug_log test_world)
               (client_calls test_world) (servers test_world ++ new)
               (threads test_world ++ (thread_of <$> new)) (sleeps test_world))) /\
    length new = size (servers_dict test_world) /\
    NoDup (server_address <$> new) /\
    (forall address binds,
        servers_dict test_world !! address = Some binds ->
        mkServer address (map_to_list binds) ∈ new) /\
    (forall s, s ∈ new ->
        exists binds,
          servers_dict test_world !! server_address s = Some binds /\
          forall a c, (a, c) ∈ server_dispatcher s <-> binds !! a = Some c).
Proof.
  apply (@start_servers_one_server_per_endpoint test_runtime).
  intros w address d. reflexivity.
Defined.

Lemma start_servers_blocking_witness :
  @start_servers test_runtime false 0 test_world
    = Some (Returned tt, started (map_to_list (servers_dict test_world)) test_world) /\
  @start_servers test_runtime true 2 test_world = None /\
  @start_servers test_runtime true 3 test_world
    = Some (Returned tt,
            slept 3 (started (map_to_list (servers_dict test_world)) test_world)).
Proof.
  destruct (@start_servers_blocking test_runtime
              (fun w address d => eq_refl) test_world) as (Hfalse & Hquiet & Hint).
  split; [apply Hfalse|]. split.
  - apply Hquiet. intros i Hi. cbn.
    destruct i as [|[|i]]; [reflexivity|reflexivity|lia].
  - apply (Hint 2%nat 3%nat); [reflexivity| |lia].
    intros i Hi. destruct i as [|[|i]]; [reflexivity|reflexivity|lia].
Defined.

Lemma receive_registers_undecorated_witness :
  exists d w1,
    receive test_host test_port (Some "/some/addr") None = inr d /\
    receive_decorator d receive_something initial_world
      = (Returned (ReceiveWrapper receive_something), w1) /\
    ReceiveWrapper receive_something <> receive_something /\
    servers_dict w1 !! (test_host, test_port)
      = Some {[ "/some/addr" := receive_something ]} /\
    (@servers_bind test_runtime ->
     forall fuel, exists w2 new,
       @start_servers test_runtime false fuel w1 = Some (Returned tt, w2) /\
       servers w2 = servers w1 ++ new /\
       mkServer (test_host, test_port) [("/some/addr", receive_something)] ∈ new /\
       forall s, s ∈ new -> server_address s = (test_host, test_port) ->
                 server_dispatcher s = [("/some/addr", receive_something)]).
Proof.
  apply (@receive_registers_undecorated test_runtime test_host test_port
           (Some "/some/addr") None receive_something "/some/addr" initial_world).
  reflexivity.
Defined.

(** What [test.py] sets up: one server for the endpoint, whose dispatcher
    maps ["/some/addr"] to the undecorated [receive_something], and one
    daemon thread. *)
Example test_program_servers :
  @start_servers test_runtime false 0 test_world
  = Some (Returned tt,
          mkWorld {[ (test_host, test_port) := {[ "/some/addr" := receive_something ]} ]}
            [] []
            [mkServer (test_host, test_port) [("/some/addr", receive_something)]]
            [mkThread (mkServer (test_host, test_port) [("/some/addr", receive_something)]) true]
            0%nat).
Proof. vm_compute. reflexivity. Qed.

(** The stored function and the wrapper differ in behaviour as well: called
    with an address alone, [receive_something] itself fails to bind its
    [message] parameter, while the wrapper would have passed [None]. *)
Example wrapper_default_is_bypassed :
  @call test_runtime receive_something (pos_args [PyStr "/some/addr"]) initial_world
  = (Raised TypeError, initial_world) /\
  (@call test_runtime (ReceiveWrapper receive_something)
     (pos_args [PyStr "/some/addr"]) initial_world).1
  = Returned PyNone.
Proof. split; vm_compute; reflexivity. Qed.

(** A message handled by [receive_something] is sent on again. *)
Example receive_something_sends :
  client_calls
    (@call test_runtime receive_something (pos_args [PyStr "/some/addr"; hey])
       initial_world).2
  = [mkClientCall test_host test_port (packet_of "/some/addr" hey) None].
Proof. vm_compute. reflexivity. Qed.

End TestProgram.

(** ** Registration, beyond the claims *)

Section Registration.
Context `{RT : Runtime}.

Lemma rebind_other (host : string) (port : Z) (f : Callable) (m : __Servers)
    (_addrs : list string) (ep : string * Z) :
  ep <> (host, port) ->
  foldl (rebind host port f) m _addrs !! ep = m !! ep.
Proof.
  intros Hep. revert m. induction _addrs as [|a rest IH]; intros m; [reflexivity|].
  cbn [foldl]. rewrite IH. unfold rebind. apply lookup_insert_ne. congruence.
Qed.

Lemma rebind_twice (host : string) (port : Z) (f : Callable) (m : __Servers)
    (_addrs : list string) :
  foldl (rebind host port f) (foldl (rebind host port f) m _addrs) _addrs
  = foldl (rebind host port f) m _addrs.
Proof.
  destruct _addrs as [|a front _] using rev_ind; [reflexivity|].
  rewrite !rebind_last. apply insert_insert_eq.
Qed.

Lemma set_servers_dict_same w : set_servers_dict (servers_dict w) w = w.
Proof. destruct w. reflexivity. Qed.

(** [__servers(update)] merges at the level of endpoints only: an endpoint
    named by [update] gets exactly the bindings [update] gives it, whatever
    was bound to it before, and every other endpoint keeps its bindings; the
    mapping returned is the stored one. *)
Theorem servers_update_is_shallow (u : __Servers) (w : World) :
  let result := __servers (Some u) w in
  result.1 = Returned (servers_dict result.2) /\
  (forall ep binds, u !! ep = Some binds -> servers_dict result.2 !! ep = Some binds) /\
  (forall ep, u !! ep = None -> servers_dict result.2 !! ep = servers_dict w !! ep).
Proof.
  cbv zeta. rewrite servers_update. cbn. split; [reflexivity|]. split.
  - intros ep binds Hu. apply lookup_union_Some_l. exact Hu.
  - intros ep Hu. apply lookup_union_r. exact Hu.
Qed.

(** A [receive] decoration changes the binding of its own endpoint and
    nothing else: the other endpoints of the registry, the servers already
    built with their dispatchers, the threads and the logs stay as they
    were. *)
Theorem receive_touches_own_endpoint (d : ReceiveDecorator) (f : Callable) (w : World) :
  let w' := (receive_decorator d f w).2 in
  (forall ep, ep <> (rd_host d, rd_port d) ->
              servers_dict w' !! ep = servers_dict w !! ep) /\
  servers w' = servers w /\
  threads w' = threads w /\
  debug_log w' = debug_log w /\
  client_calls w' = client_calls w /\
  sleeps w' = sleeps w.
Proof.
  cbv zeta. rewrite receive_decorator_run. cbn.
  split; [|repeat split].
  intros ep Hep. apply rebind_other. exact Hep.
Qed.

(** [receive(host, port, addresses=[])] passes the check for a missing
    address, and its decorator registers nothing: the world is unchanged and
    the wrapper is returned. *)
Theorem receive_empty_addresses host port (f : Callable) (w : World) :
  exists d,
    receive host port None (Some []) = inr d /\
    receive_decorator d f w = (Returned (ReceiveWrapper f), w).
Proof.
  eexists. split; [reflexivity|].
  rewrite receive_decorator_run. cbn. rewrite set_servers_dict_same. reflexivity.
Qed.

(** Applying the same [receive] decorator to the same function a second
    time changes nothing more. *)
Theorem receive_decorator_idempotent (d : ReceiveDecorator) (f : Callable) (w : World) :
  receive_decorator d f (receive_decorator d f w).2
  = (Returned (ReceiveWrapper f), (receive_decorator d f w).2).
Proof.
  rewrite !receive_decorator_run. cbn. rewrite rebind_twice. reflexivity.
Qed.

(** Two [receive] decorators stacked on one function: the outer one is
    applied to the wrapper the inner one returned, so it registers that
    wrapper, not [f]; on a shared endpoint only the outer address stays
    bound, on different endpoints the inner one keeps [f]. *)
Theorem receive_stacked host1 port1 a1 host2 port2 a2 (f : Callable) (w : World) :
  exists inner outer w1 w2,
    receive host1 port1 (Some a1) None = inr inner /\
    receive host2 port2 (Some a2) None = inr outer /\
    receive_decorator inner f w = (Returned (ReceiveWrapper f), w1) /\
    receive_decorator outer (ReceiveWrapper f) w1
      = (Returned (ReceiveWrapper (ReceiveWrapper f)), w2) /\
    servers_dict w2 !! (host2, port2) = Some {[ a2 := ReceiveWrapper f ]} /\
    ((host1, port1) <> (host2, port2) ->
     servers_dict w2 !! (host1, port1) = Some {[ a1 := f ]}).
Proof.
  eexists _, _, _, _.
  split; [reflexivity|]. split; [reflexivity|].
  split; [apply receive_decorator_run|]. split; [apply receive_decorator_run|].
  cbn. unfold rebind. split; [apply lookup_insert_eq|].
  intros Hne. rewrite lookup_insert_ne by congruence. apply lookup_insert_eq.
Qed.

Lemma rebind_one_binding (host : string) (port : Z) (f : Callable) (m : __Servers)
    (_addrs : list string) :
  one_binding_each m -> one_binding_each (foldl (rebind host port f) m _addrs).
Proof.
  revert m. induction _addrs as [|a rest IH]; intros m Hm; [exact Hm|].
  cbn [foldl]. apply IH. intros ep binds. unfold rebind.
  destruct (decide ((host, port) = ep)) as [<-|Hne].
  - rewrite lookup_insert_eq. intros [= <-]. eauto.
  - rewrite lookup_insert_ne by exact Hne. apply Hm.
Qed.

(** As long as the registry is filled through [receive] alone, every
    endpoint is bound to exactly one address, and the dispatcher that
    [start_servers] builds for an endpoint holds exactly one handler. *)
Theorem receive_keeps_one_binding (d : ReceiveDecorator) (f : Callable) (w : World) :
  one_binding_each (servers_dict w) ->
  let w' := (receive_decorator d f w).2 in
  one_binding_each (servers_dict w') /\
  (forall ep binds,
      servers_dict w' !! ep = Some binds ->
      length (map_binds new_dispatcher (map_to_list binds)) = 1%nat).
Proof.
  intros Hone. cbv zeta. rewrite receive_decorator_run. cbn.
  pose proof (rebind_one_binding (rd_host d) (rd_port d) f (servers_dict w)
                (consolidate (rd_address d) (rd_addresses d)) Hone) as Hone'.
  split; [exact Hone'|].
  intros ep binds Hbinds. destruct (Hone' ep binds Hbinds) as (a & g & ->).
  rewrite map_binds_app, map_to_list_singleton. reflexivity.
Qed.

End Registration.

(** ** Sending, beyond the claims *)

Section Sending.
Context `{RT : Runtime}.

(** When the client raises, the wrapper of [send] lets the exception
    through instead of returning the packet; the packet was logged before
    and the failed call is the only one made. *)
Theorem send_wrapper_client_error host port f args w packet w1 e :
  call f args w = (Returned packet, w1) ->
  send_message_error (add_debug (mkDebug packet host port) w1) host port packet = Some e ->
  call (SendWrapper host port f) args w =
    (Raised e,
     add_client_call (mkClientCall host port packet (Some e))
       (add_debug (mkDebug packet host port) w1)).
Proof.
  intros Hf Hsend. rewrite (send_wrapper_run host port f args w packet w1 Hf).
  cbv zeta. rewrite Hsend. reflexivity.
Qed.

(** Two [send] decorators stacked on one function: the packet [f] returns
    goes to the inner target first, then to the outer one, and is returned;
    [f] runs once. *)
Theorem send_wrappers_stack host1 port1 host2 port2 f args w packet w1 :
  call f args w = (Returned packet, w1) ->
  let w2 := add_client_call (mkClientCall host2 port2 packet None)
              (add_debug (mkDebug packet host2 port2) w1) in
  send_message_error (add_debug (mkDebug packet host2 port2) w1) host2 port2 packet = None ->
  send_message_error (add_debug (mkDebug packet host1 port1) w2) host1 port1 packet = None ->
  call (SendWrapper host1 port1 (SendWrapper host2 port2 f)) args w =
    (Returned packet,
     add_client_call (mkClientCall host1 port1 packet None)
       (add_debug (mkDebug packet host1 port1) w2)).
Proof.
  intros Hf w2 Hinner Houter.
  assert (call (SendWrapper host2 port2 f) args w = (Returned packet, w2)) as Hin.
  { rewrite (send_wrapper_run host2 port2 f args w packet w1 Hf).
    cbv zeta. rewrite Hinner. reflexivity. }
  rewrite (send_wrapper_run host1 port1 _ args w packet w2 Hin).
  cbv zeta. rewrite Houter. reflexivity.
Qed.

(** If the inner of two stacked [send] wrappers fails, the outer target is
    never tried. *)
Theorem send_wrappers_stack_inner_error host1 port1 host2 port2 f args w packet w1 e :
  call f args w = (Returned packet, w1) ->
  send_message_error (add_debug (mkDebug packet host2 port2) w1) host2 port2 packet = Some e ->
  call (SendWrapper host1 port1 (SendWrapper host2 port2 f)) args w =
    (Raised e,
     add_client_call (mkClientCall host2 port2 packet (Some e))
       (add_debug (mkDebug packet host2 port2) w1)).
Proof.
  intros Hf Hinner.
  pose proof (send_wrapper_run host2 port2 f args w packet w1 Hf) as Hin.
  cbv zeta in Hin. rewrite Hinner in Hin.
  change (call (SendWrapper host1 port1 (SendWrapper host2 port2 f)) args w)
    with ((packet' ← call (SendWrapper host2 port2 f) args;
           logging_debug packet' host1 port1;;
           send_message host1 port1 packet';;
           mret packet') w).
  unfold mbind at 1. unfold Py_bind at 1. rewrite Hin. reflexivity.
Qed.

End Sending.

(** ** Starting and waiting, beyond the claims *)

Section Starting.
Context `{RT : Runtime}.

Lemma wait_inversion fuel w outcome w' :
  wait fuel w = Some (outcome, w') ->
  exists n,
    (n < fuel)%nat /\
    sleep_interrupted (sleeps w + n)%nat = true /\
    (forall i, (i < n)%nat -> sleep_interrupted (sleeps w + i)%nat = false) /\
    outcome = Returned tt /\
    w' = slept (S n) w.
Proof.
  revert w. induction fuel as [|fuel IH]; intros w; [discriminate|].
  cbn [wait]. destruct (sleep_interrupted (sleeps w)) eqn:Hnow.
  - intros [= <- <-]. exists 0%nat. rewrite Nat.add_0_r.
    split; [lia|]. split; [exact Hnow|]. split; [intros i Hi; lia|].
    split; [reflexivity|]. unfold slept, add_sleep. f_equal. lia.
  - intros Hw. apply IH in Hw as (n & Hn & Hint & Hquiet & Hout & Hw').
    exists (S n). cbn in Hint, Hquiet, Hw'.
    split; [lia|]. split.
    { replace (sleeps w + S n)%nat with (S (sleeps w + n))%nat by lia. exact Hint. }
    split.
    { intros i Hi. destruct i as [|i].
      - rewrite Nat.add_0_r. exact Hnow.
      - replace (sleeps w + S i)%nat with (S (sleeps w + i))%nat by lia.
        apply Hquiet. lia. }
    split; [exact Hout|]. rewrite Hw'. unfold slept, add_sleep. cbn. f_equal. lia.
Qed.

(** [wait] comes back exactly when a sleep is interrupted: it returns after
    [n + 1] sleeps if and only if the last of them is the first one cut
    short by a [KeyboardInterrupt]; the exception is swallowed, and nothing
    but the count of sleeps changes. *)
Theorem wait_returns_iff_interrupted fuel w outcome w' :
  wait fuel w = Some (outcome, w') <->
  exists n,
    (n < fuel)%nat /\
    sleep_interrupted (sleeps w + n)%nat = true /\
    (forall i, (i < n)%nat -> sleep_interrupted (sleeps w + i)%nat = false) /\
    outcome = Returned tt /\
    w' = slept (S n) w.
Proof.
  split; [apply wait_inversion|].
  intros (n & Hn & Hint & Hquiet & -> & ->).
  apply wait_interrupted; assumption.
Qed.

Lemma started_frame items w :
  servers_dict (started items w) = servers_dict w /\
  debug_log (started items w) = debug_log w /\
  client_calls (started items w) = client_calls w /\
  sleeps (started items w) = sleeps w.
Proof. repeat split. Qed.

(** Whatever the library answers, what [start_servers] has built when it
    comes back is sound: every new server belongs to a key of the registry
    and carries that key's bindings, no two new servers share an endpoint,
    each has its daemon thread, and nothing was sent, logged or registered. *)
Theorem start_servers_builds_from_registry blocking fuel w outcome w' :
  start_servers blocking fuel w = Some (outcome, w') ->
  exists new,
    servers w' = servers w ++ new /\
    threads w' = threads w ++ (thread_of <$> new) /\
    NoDup (server_address <$> new) /\
    (forall s, s ∈ new ->
       exists binds,
         servers_dict w !! server_address s = Some binds /\
         server_dispatcher s = map_to_list binds) /\
    servers_dict w' = servers_dict w /\
    debug_log w' = debug_log w /\
    client_calls w' = client_calls w.
Proof.
  rewrite start_servers_setup.
  destruct (start_each_prefix (map_to_list (servers_dict w)) w)
    as (k & result & _ & Hrun & _).
  rewrite Hrun. intros Hret.
  set (items := take k (map_to_list (servers_dict w))) in *.
  assert (servers w' = servers (started items w) /\
          threads w' = threads (started items w) /\
          servers_dict w' = servers_dict w /\
          debug_log w' = debug_log w /\
          client_calls w' = client_calls w) as (Hs & Ht & Hd & Hl & Hc).
  { destruct result as [[]|e].
    - destruct blocking.
      + apply wait_inversion in Hret as (n & _ & _ & _ & _ & ->). repeat split.
      + injection Hret as <- <-. repeat split.
    - injection Hret as <- <-. repeat split. }
  exists (server_of <$> items).
  split; [exact Hs|]. split; [exact Ht|]. split.
  { rewrite server_of_address. unfold items. rewrite fmap_take.
    apply (sublist_NoDup _ (map_to_list (servers_dict w)).*1);
      [apply NoDup_fst_map_to_list|apply sublist_take]. }
  split; [|auto].
  intros s Hin. apply list_elem_of_fmap in Hin as ([address binds] & -> & Hin).
  apply (subseteq_take k) in Hin. apply elem_of_map_to_list in Hin.
  exists binds. split; [exact Hin|reflexivity].
Qed.

(** With nothing registered, [start_servers] builds nothing and cannot
    fail: without [blocking] it returns at once, with [blocking] it only
    waits. *)
Theorem start_servers_empty_registry blocking fuel w :
  servers_dict w = ∅ ->
  start_servers blocking fuel w
  = if blocking then wait fuel w else Some (Returned tt, w).
Proof.
  intros Hempty. rewrite start_servers_setup, Hempty, map_to_list_empty.
  reflexivity.
Qed.

Lemma start_servers_returned blocking fuel w w1 :
  start_servers blocking fuel w = Some (Returned tt, w1) ->
  servers w1 = servers w ++ (server_of <$> map_to_list (servers_dict w)) /\
  servers_dict w1 = servers_dict w.
Proof.
  rewrite start_servers_setup.
  destruct (start_each_prefix (map_to_list (servers_dict w)) w)
    as (k & result & Hk & Hrun & Hall).
  rewrite Hrun. destruct result as [[]|e]; [|discriminate].
  assert (k = length (map_to_list (servers_dict w))) as -> by (apply Hall; reflexivity).
  rewrite take_ge by lia. destruct blocking.
  - intros Hret. apply wait_inversion in Hret as (n & _ & _ & _ & _ & ->).
    split; reflexivity.
  - intros [= <-]. split; reflexivity.
Qed.

(** [start_servers] keeps no record of what it has started: where the
    library accepts it, a second call builds a server and a thread for every
    endpoint once more. *)
Theorem start_servers_twice (Hok : servers_bind) fuel1 fuel2 w :
  let new := server_of <$> map_to_list (servers_dict w) in
  exists w1 w2,
    start_servers false fuel1 w = Some (Returned tt, w1) /\
    start_servers false fuel2 w1 = Some (Returned tt, w2) /\
    servers w2 = servers w ++ new ++ new /\
    threads w2 = threads w ++ (thread_of <$> new) ++ (thread_of <$> new) /\
    length new = size (servers_dict w).
Proof.
  cbv zeta. eexists _, _.
  split; [apply (start_servers_nonblocking Hok)|].
  split; [apply (start_servers_nonblocking Hok)|].
  cbn. rewrite <- !app_assoc, length_fmap, length_map_to_list. repeat split.
Qed.

(** On a system that refuses an endpoint already held by a server, a call
    of [start_servers] after a successful one raises at the first endpoint
    and builds nothing. *)
Theorem start_servers_twice_exclusive (Hexcl : ports_exclusive) blocking fuel1 fuel2 w w1 :
  servers_dict w <> ∅ ->
  start_servers false fuel1 w = Some (Returned tt, w1) ->
  exists e, start_servers blocking fuel2 w1 = Some (Raised e, w1).
Proof.
  intros Hregistered Hfirst.
  apply start_servers_returned in Hfirst as [Hservers Hdict].
  rewrite start_servers_setup, Hdict.
  destruct (map_to_list (servers_dict w)) as [|[address binds] rest] eqn:Hitems.
  { apply map_to_list_empty_iff in Hitems. contradiction. }
  cbn [start_each]. py_unfold.
  destruct (Hexcl w1 address (map_binds new_dispatcher (map_to_list binds))) as [e He].
  { rewrite Hservers, fmap_app. apply elem_of_app. right. cbn. left. }
  rewrite He. exists e. reflexivity.
Qed.

End Starting.

(** ** Decorator order and the test program *)

Section Programs.
Context `{RT : Runtime}.

(** The order of the two decorators decides what the server calls.  With
    [receive] outermost the registry holds the wrapper of [send], so a
    handled message is answered by a packet; with [send] outermost the
    registry holds the bare function and the wrapper of [send] is only
    reached through the decorated name. *)
Theorem decorator_order host port a shost sport (f : Callable) (w : World) :
  (exists d w1,
      receive host port (Some a) None = inr d /\
      receive_decorator d (send_decorator (send shost sport) f) w
        = (Returned (ReceiveWrapper (SendWrapper shost sport f)), w1) /\
      servers_dict w1 !! (host, port) = Some {[ a := SendWrapper shost sport f ]}) /\
  (exists d g w1,
      receive host port (Some a) None = inr d /\
      receive_decorator d f w = (Returned g, w1) /\
      send_decorator (send shost sport) g = SendWrapper shost sport (ReceiveWrapper f) /\
      servers_dict w1 !! (host, port) = Some {[ a := f ]}).
Proof.
  split.
  - eexists _, _. split; [reflexivity|]. split; [apply receive_decorator_run|].
    cbn. unfold rebind. apply lookup_insert_eq.
  - eexists _, _, _. split; [reflexivity|]. split; [apply receive_decorator_run|].
    split; [reflexivity|]. cbn. unfold rebind. apply lookup_insert_eq.
Qed.

End Programs.

Section TestMain.
Variable send_error : World -> string -> Z -> PyVal -> option PyExn.
Variable bind_error : World -> string * Z -> Dispatcher -> option PyExn.
Variable interrupted : nat -> bool.

(** [__tests], when the server can be bound and the network takes the
    packet: the main thread registers [receive_something] itself under
    ["/some/addr"], starts its server, makes exactly one client call with
    [("/some/addr", "Hey this is something")] to its own endpoint, and comes
    back only at the first interrupted sleep. *)
Theorem tests_sends_once_and_waits (w : World) (n fuel : nat) :
  (forall w' address d, bind_error w' address d = None) ->
  (forall w' host port packet, send_error w' host port packet = None) ->
  interrupted (sleeps w + n)%nat = true ->
  (forall i, (i < n)%nat -> interrupted (sleeps w + i)%nat = false) ->
  (n < fuel)%nat ->
  let rt := tests_runtime send_error bind_error interrupted in
  exists w',
    @__tests rt fuel w = Some (Returned tt, w') /\
    servers_dict w'
    = <[ (test_host, test_port) := {[ "/some/addr" := UserFunction "receive_something" ]} ]>
        (servers_dict w) /\
    client_calls w'
    = client_calls w
      ++ [mkClientCall test_host test_port
            (packet_of "/some/addr" (PyStr "Hey this is something")) None] /\
    mkServer (test_host, test_port) [("/some/addr", UserFunction "receive_something")]
      ∈ servers w' /\
    sleeps w' = (sleeps w + S n)%nat /\
    (forall fuel', (fuel' <= n)%nat -> @__tests rt fuel' w = None).
Proof.
  intros Hbind Hsend Hint Hquiet Hfuel rt.
  assert (@servers_bind rt) as Hok by (intros w0 address d; apply Hbind).
  set (packet := packet_of "/some/addr" (PyStr "Hey this is something")).
  set (w1 := set_servers_dict
               (foldl (rebind test_host test_port (UserFunction "receive_something"))
                  (servers_dict w) ["/some/addr"]) w).
  set (w2 := started (map_to_list (servers_dict w1)) w1).
  set (w3 := add_client_call (mkClientCall test_host test_port packet None)
               (add_debug (mkDebug packet test_host test_port) w2)).
  assert (forall k, @__tests rt k w = @wait rt k w3) as Hmain.
  { intros k. unfold __tests. cbn [receive].
    rewrite receive_decorator_run.
    cbn [rd_host rd_port rd_address rd_addresses consolidate app].
    fold w1. rewrite (@start_servers_nonblocking rt Hok k w1). fold w2.
    unfold send_decorator, send. cbn [sd_host sd_port].
    rewrite (@send_wrapper_run rt test_host test_port (UserFunction "send_something")
               (pos_args [PyStr "Hey this is something"]) w2 packet w2 eq_refl).
    cbv zeta. cbn [send_message_error rt tests_runtime]. rewrite Hsend. reflexivity. }
  exists (slept (S n) w3).
  split; [rewrite Hmain; apply (@wait_interrupted rt n w3 fuel); assumption|].
  split; [reflexivity|]. split; [reflexivity|]. split.
  { cbn. apply elem_of_app. right. apply list_elem_of_fmap.
    exists ((test_host, test_port), {[ "/some/addr" := UserFunction "receive_something" ]}).
    split.
    - unfold server_of. cbn. rewrite map_to_list_singleton. reflexivity.
    - apply elem_of_map_to_list. unfold rebind. apply lookup_insert_eq. }
  split; [reflexivity|].
  intros fuel' Hfuel'. rewrite Hmain. apply (@wait_running rt).
  intros i Hi. apply Hquiet. lia.
Qed.

End TestMain.

(** ** Instances of the further properties *)

Section Instances.

Lemma receive_keeps_one_binding_witness :
  let w' := (receive_decorator
               (mkReceiveDecorator test_host test_port (Some "/some/addr") None)
               receive_something initial_world).2 in
  one_binding_each (servers_dict w') /\
  (forall ep binds,
      servers_dict w' !! ep = Some binds ->
      length (map_binds new_dispatcher (map_to_list binds)) = 1%nat).
Proof.
  apply (receive_keeps_one_binding
           (mkReceiveDecorator test_host test_port (Some "/some/addr") None)
           receive_something initial_world).
  intros ep binds Hlook. cbn in Hlook. rewrite lookup_empty in Hlook. discriminate.
Defined.

Lemma send_wrapper_raises_witness :
  @call test_runtime (SendWrapper test_host test_port (UserFunction "missing"))
    (pos_args [hey]) initial_world
  = (Raised (OtherError "NameError"), initial_world).
Proof.
  apply (@send_wrapper_raises test_runtime test_host test_port (UserFunction "missing")
           (pos_args [hey]) initial_world (OtherError "NameError") initial_world).
  reflexivity.
Defined.

Lemma send_wrapper_client_error_witness :
  @call offline_runtime send_something (pos_args [hey]) initial_world
  = (Raised (OSError "Network is unreachable"),
     add_client_call
       (mkClientCall test_host test_port (packet_of "/some/addr" hey)
          (Some (OSError "Network is unreachable")))
       (add_debug (mkDebug (packet_of "/some/addr" hey) test_host test_port)
          initial_world)).
Proof.
  apply (@send_wrapper_client_error offline_runtime test_host test_port
           (UserFunction "send_something") (pos_args [hey]) initial_world
           (packet_of "/some/addr" hey) initial_world
           (OSError "Network is unreachable")); reflexivity.
Defined.

Lemma send_wrappers_stack_witness :
  let w2 := add_client_call
              (mkClientCall "10.0.0.2" 9000 (packet_of "/some/addr" hey) None)
              (add_debug (mkDebug (packet_of "/some/addr" hey) "10.0.0.2" 9000)
                 initial_world) in
  @call test_runtime
    (SendWrapper test_host test_port
       (SendWrapper "10.0.0.2" 9000 (UserFunction "send_something")))
    (pos_args [hey]) initial_world
  = (Returned (packet_of "/some/addr" hey),
     add_client_call (mkClientCall test_host test_port (packet_of "/some/addr" hey) None)
       (add_debug (mkDebug (packet_of "/some/addr" hey) test_host test_port) w2)).
Proof.
  apply (@send_wrappers_stack test_runtime test_host test_port "10.0.0.2" 9000
           (UserFunction "send_something") (pos_args [hey]) initial_world
           (packet_of "/some/addr" hey) initial_world); reflexivity.
Defined.

Lemma send_wrappers_stack_inner_error_witness :
  @call offline_runtime
    (SendWrapper test_host test_port
       (SendWrapper "10.0.0.2" 9000 (UserFunction "send_something")))
    (pos_args [hey]) initial_world
  = (Raised (OSError "Network is unreachable"),
     add_client_call
       (mkClientCall "10.0.0.2" 9000 (packet_of "/some/addr" hey)
          (Some (OSError "Network is unreachable")))
       (add_debug (mkDebug (packet_of "/some/addr" hey) "10.0.0.2" 9000) initial_world)).
Proof.
  apply (@send_wrappers_stack_inner_error offline_runtime test_host test_port
           "10.0.0.2" 9000 (UserFunction "send_something") (pos_args [hey])
           initial_world (packet_of "/some/addr" hey) initial_world
           (OSError "Network is unreachable")); reflexivity.
Defined.

Lemma start_servers_builds_from_registry_witness :
  let w' := started (map_to_list (servers_dict test_world)) test_world in
  exists new,
    servers w' = servers test_world ++ new /\
    threads w' = threads test_world ++ (thread_of <$> new) /\
    NoDup (server_address <$> new) /\
    (forall s, s ∈ new ->
       exists binds,
         servers_dict test_world !! server_address s = Some binds /\
         server_dispatcher s = map_to_list binds) /\
    servers_dict w' = servers_dict test_world /\
    debug_log w' = debug_log test_world /\
    client_calls w' = client_calls test_world.
Proof.
  apply (@start_servers_builds_from_registry test_runtime false 0%nat test_world
           (Returned tt) (started (map_to_list (servers_dict test_world)) test_world)).
  vm_compute. reflexivity.
Defined.

Lemma start_servers_empty_registry_witness :
  @start_servers port_taken_runtime false 0 initial_world
  = Some (Returned tt, initial_world).
Proof.
  apply (@start_servers_empty_registry port_taken_runtime false 0%nat initial_world).
  reflexivity.
Defined.

Lemma start_servers_twice_witness :
  let new := server_of <$> map_to_list (servers_dict test_world) in
  exists w1 w2,
    @start_servers test_runtime false 0 test_world = Some (Returned tt, w1) /\
    @start_servers test_runtime false 0 w1 = Some (Returned tt, w2) /\
    servers w2 = servers test_world ++ new ++ new /\
    threads w2 = threads test_world ++ (thread_of <$> new) ++ (thread_of <$> new) /\
    length new = size (servers_dict test_world).
Proof.
  apply (@start_servers_twice test_runtime (fun w address d => eq_refl)
           0%nat 0%nat test_world).
Defined.

Lemma start_servers_twice_exclusive_witness :
  exists e,
    @start_servers exclusive_runtime false 0
      (started (map_to_list (servers_dict test_world)) test_world)
    = Some (Raised e, started (map_to_list (servers_dict test_world)) test_world).
Proof.
  apply (@start_servers_twice_exclusive exclusive_runtime) with (fuel1 := 0%nat) (w := test_world).
  - intros w address d Hin. cbn. rewrite bool_decide_eq_true_2 by exact Hin. eexists. reflexivity.
  - vm_compute. discriminate.
  - vm_compute. reflexivity.
Defined.

Lemma tests_sends_once_and_waits_witness :
  let rt := tests_runtime (fun _ _ _ _ => None) (fun _ _ _ => None) (fun n => Nat.eqb n 2) in
  exists w',
    @__tests rt 3 initial_world = Some (Returned tt, w') /\
    servers_dict w'
    = <[ (test_host, test_port) := {[ "/some/addr" := UserFunction "receive_something" ]} ]>
        (servers_dict initial_world) /\
    client_calls w'
    = client_calls initial_world
      ++ [mkClientCall test_host test_port
            (packet_of "/some/addr" (PyStr "Hey this is something")) None] /\
    mkServer (test_host, test_port) [("/some/addr", UserFunction "receive_something")]
      ∈ servers w' /\
    sleeps w' = (sleeps initial_world + 3)%nat /\
    (forall fuel', (fuel' <= 2)%nat -> @__tests rt fuel' initial_world = None).
Proof.
  apply (tests_sends_once_and_waits (fun _ _ _ _ => None) (fun _ _ _ => None)
           (fun n => Nat.eqb n 2) initial_world 2%nat 3%nat).
  - reflexivity.
  - reflexivity.
  - reflexivity.
  - intros i Hi. destruct i as [|[|i]]; [reflexivity|reflexivity|lia].
  - lia.
Defined.

End Instances.

(** ** The codec round trip *)

Module CodecFacts.
Import Codec.

Local Open Scope Z_scope.

Lemma Z_of_byte_of_Z (z : Z) : Z_of_byte (byte_of_Z z) = z mod 256.
Proof.
  unfold Z_of_byte, byte_of_Z.
  assert (0 <= z mod 256 < 256) as Hrange by (apply Z.mod_pos_bound; lia).
  destruct (Byte.of_N (Z.to_N (z mod 256))) as [b|] eqn:Hb.
  - apply Byte.to_of_N in Hb. cbn. rewrite Hb. lia.
  - apply Byte.of_N_None_iff in Hb. lia.
Qed.

Lemma Z_of_byte_range (b : byte) : 0 <= Z_of_byte b < 256.
Proof. unfold Z_of_byte. pose proof (Byte.to_N_bounded b). lia. Qed.

Lemma read_u32_be32 (u : Z) (rest : list byte) :
  0 <= u < 4294967296 ->
  read_u32 (be32 u ++ rest) = Ok (u, rest).
Proof.
  intros Hu. cbn. unfold u32_of_bytes. rewrite !Z_of_byte_of_Z.
  do 2 f_equal. Z.div_mod_to_equations. lia.
Qed.

Lemma int32_of_u32_wrap (n : Z) :
  -2147483648 <= n < 2147483648 ->
  int32_of_u32 (n mod 4294967296) = n.
Proof.
  intros Hn. unfold int32_of_u32.
  destruct (Z.ltb_spec (n mod 4294967296) 2147483648);
    Z.div_mod_to_equations; lia.
Qed.

Lemma until_null_body (body rest : list byte) :
  existsb (Byte.eqb x00) body = false ->
  until_null (body ++ x00 :: rest) = Some body.
Proof.
  induction body as [|b body IH]; intros Hnull.
  - reflexivity.
  - cbn in Hnull |- *. apply orb_false_elim in Hnull as [Hb Hbody].
    rewrite Hb, (IH Hbody). reflexivity.
Qed.

Lemma osc_string_length (s : string) :
  length (osc_string s)
  = (S (length (list_byte_of_string s)) + padding (S (length (list_byte_of_string s))))%nat.
Proof.
  unfold osc_string. cbv zeta. rewrite length_app. cbn [length].
  rewrite length_replicate. lia.
Qed.

Lemma read_string_osc_string (s : string) (rest : list byte) :
  has_null s = false ->
  read_string (osc_string s ++ rest) = Ok (s, rest).
Proof.
  intros Hnull. unfold read_string.
  assert (until_null (osc_string s ++ rest) = Some (list_byte_of_string s)) as ->.
  { unfold osc_string. cbv zeta. rewrite <- app_assoc. cbn [app].
    apply until_null_body. exact Hnull. }
  cbv zeta. rewrite <- osc_string_length.
  destruct (decide (length (osc_string s) <= length (osc_string s ++ rest))%nat) as [_|Hn].
  - rewrite drop_app_length, string_of_list_byte_of_string. reflexivity.
  - rewrite length_app in Hn. lia.
Qed.

Lemma read_blob_osc_blob (b rest : list byte) :
  Z.of_nat (length b) < 2147483648 ->
  read_blob (osc_blob b ++ rest) = Ok (b, rest).
Proof.
  intros Hlen. unfold read_blob, osc_blob, encode_int32.
  rewrite <- app_assoc, read_u32_be32 by (apply Z.mod_pos_bound; lia).
  cbn [mbind Result_bind]. cbv zeta.
  rewrite int32_of_u32_wrap by lia.
  destruct (Z.ltb_spec (Z.of_nat (length b)) 0) as [Hneg|_]; [lia|].
  rewrite Nat2Z.id.
  destruct (decide (length b + padding (length b)
                    <= length ((b ++ replicate (padding (length b)) x00) ++ rest))%nat)
    as [_|Hn].
  - rewrite <- app_assoc, take_app_length.
    rewrite app_assoc.
    replace (length b + padding (length b))%nat
      with (length (b ++ replicate (padding (length b)) x00))
      by (rewrite length_app, length_replicate; reflexivity).
    rewrite drop_app_length. reflexivity.
  - rewrite !length_app, length_replicate in Hn. lia.
Qed.

(** Induction over arguments that reaches inside arrays. *)
Lemma Argument_nested_ind (P : Argument -> Prop) :
  (forall n, P (Int32 n)) ->
  (forall bits, P (Float32 bits)) ->
  (forall s, P (Str s)) ->
  (forall b, P (Blob b)) ->
  (forall b, P (Boolean b)) ->
  P Nil ->
  (forall items, Forall P items -> P (Array items)) ->
  forall a, P a.
Proof.
  intros Hint Hfloat Hstr Hblob Hbool Hnil Harray.
  fix IH 1.
  intros [n|bits|s|b|b| |items];
    [apply Hint|apply Hfloat|apply Hstr|apply Hblob|apply Hbool|apply Hnil|].
  apply Harray. induction items as [|x items IHitems]; constructor.
  - apply IH.
  - exact IHitems.
Qed.

Lemma arg_ok_no_error (a : Argument) : arg_ok a = true -> arg_error a = None.
Proof.
  induction a as [n|bits|s|b|b| |items IH] using Argument_nested_ind;
    cbn [arg_ok arg_error]; intros Hok; try reflexivity.
  - rewrite Hok. reflexivity.
  - rewrite Hok. reflexivity.
  - apply negb_true_iff in Hok. rewrite Hok. reflexivity.
  - rewrite Hok. reflexivity.
  - induction IH as [|x items Hx _ IHitems]; [reflexivity|].
    cbn in Hok. apply andb_true_iff in Hok as [Hokx Hokitems].
    rewrite (Hx Hokx). apply IHitems. exact Hokitems.
Qed.

Lemma args_ok_no_error (l : list Argument) :
  forallb arg_ok l = true -> args_error l = None.
Proof. intros Hok. apply (arg_ok_no_error (Array l)). exact Hok. Qed.

(** One step of [read_args] for each tag. *)
Lemma read_args_int ts bs stack cur :
  read_args ("i"%char :: ts) bs stack cur
  = '(u, rest) ← read_u32 bs; read_args ts rest stack (Int32 (int32_of_u32 u) :: cur).
Proof. reflexivity. Qed.

Lemma read_args_float ts bs stack cur :
  read_args ("f"%char :: ts) bs stack cur
  = '(u, rest) ← read_u32 bs; read_args ts rest stack (Float32 u :: cur).
Proof. reflexivity. Qed.

Lemma read_args_string ts bs stack cur :
  read_args ("s"%char :: ts) bs stack cur
  = '(s, rest) ← read_string bs; read_args ts rest stack (Str s :: cur).
Proof. reflexivity. Qed.

Lemma read_args_blob ts bs stack cur :
  read_args ("b"%char :: ts) bs stack cur
  = '(b, rest) ← read_blob bs; read_args ts rest stack (Blob b :: cur).
Proof. reflexivity. Qed.

Lemma read_args_open ts bs stack cur :
  read_args ("["%char :: ts) bs stack cur = read_args ts bs (cur :: stack) [].
Proof. reflexivity. Qed.

Lemma read_args_close ts bs outer stack cur :
  read_args ("]"%char :: ts) bs (outer :: stack) cur
  = read_args ts bs stack (Array (rev cur) :: outer).
Proof. reflexivity. Qed.

Lemma read_args_items (items : list Argument) :
  Forall reads_back items ->
  forallb arg_ok items = true ->
  forall ts bs stack cur,
    read_args (flat_map arg_tags items ++ ts) (flat_map arg_payload items ++ bs) stack cur
    = read_args ts bs stack (rev items ++ cur).
Proof.
  induction 1 as [|x items Hx _ IH]; intros Hok ts bs stack cur; [reflexivity|].
  cbn in Hok. apply andb_true_iff in Hok as [Hokx Hokitems].
  cbn [flat_map rev]. rewrite <- !app_assoc.
  rewrite (Hx Hokx), (IH Hokitems). reflexivity.
Qed.

Lemma read_args_argument (a : Argument) : reads_back a.
Proof.
  induction a as [n|bits|s|b|b| |items IH] using Argument_nested_ind;
    intros Hok ts bs stack cur; cbn [arg_ok] in Hok.
  - apply andb_true_iff in Hok as [Hlo Hhi].
    apply Z.leb_le in Hlo. apply Z.ltb_lt in Hhi.
    cbn [arg_tags arg_payload app]. rewrite read_args_int. unfold encode_int32.
    rewrite read_u32_be32 by (apply Z.mod_pos_bound; lia).
    cbn [mbind Result_bind]. rewrite int32_of_u32_wrap by lia. reflexivity.
  - apply andb_true_iff in Hok as [Hlo Hhi].
    apply Z.leb_le in Hlo. apply Z.ltb_lt in Hhi.
    cbn [arg_tags arg_payload app]. rewrite read_args_float.
    rewrite read_u32_be32 by lia. reflexivity.
  - apply negb_true_iff in Hok.
    cbn [arg_tags arg_payload app]. rewrite read_args_string.
    rewrite (read_string_osc_string s bs Hok). reflexivity.
  - apply Z.ltb_lt in Hok.
    cbn [arg_tags arg_payload app]. rewrite read_args_blob.
    rewrite (read_blob_osc_blob b bs Hok). reflexivity.
  - destruct b; reflexivity.
  - reflexivity.
  - cbn [arg_tags arg_payload app]. rewrite read_args_open.
    rewrite <- app_assoc. rewrite (read_args_items items IH Hok).
    cbn [app]. rewrite read_args_close, app_nil_r, rev_involutive. reflexivity.
Qed.

Lemma read_args_arguments (args : list Argument) :
  forallb arg_ok args = true ->
  read_args (flat_map arg_tags args) (flat_map arg_payload args) [] [] = Ok args.
Proof.
  intros Hok.
  rewrite <- (app_nil_r (flat_map arg_tags args)), <- (app_nil_r (flat_map arg_payload args)).
  rewrite read_args_items; [|apply Forall_forall; intros; apply read_args_argument|exact Hok].
  cbn. rewrite app_nil_r, rev_involutive. reflexivity.
Qed.

Lemma arg_tags_not_null (a : Argument) : forallb not_null (arg_tags a) = true.
Proof.
  induction a as [n|bits|s|b|b| |items IH] using Argument_nested_ind;
    try reflexivity.
  - destruct b; reflexivity.
  - cbn [arg_tags forallb]. rewrite forallb_app.
    replace (forallb not_null (flat_map arg_tags items)) with true; [reflexivity|].
    symmetry. induction IH as [|x items Hx _ IHitems]; [reflexivity|].
    cbn [flat_map]. rewrite forallb_app, Hx, IHitems. reflexivity.
Qed.

Lemma tag_string_no_null (args : list Argument) :
  has_null (string_of_list_ascii (","%char :: flat_map arg_tags args)) = false.
Proof.
  unfold has_null, list_byte_of_string.
  rewrite list_ascii_of_string_of_list_ascii.
  pose proof (arg_tags_not_null (Array args)) as Htags.
  cbn [arg_tags forallb] in Htags. rewrite forallb_app in Htags.
  apply andb_true_iff in Htags as [_ Htags]. apply andb_true_iff in Htags as [Htags _].
  cbn [List.map existsb]. change (Byte.eqb x00 (byte_of_ascii ",")) with false.
  cbn [orb]. induction (flat_map arg_tags args) as [|c l IHl]; [reflexivity|].
  cbn [forallb existsb List.map] in Htags |- *.
  apply andb_true_iff in Htags as [Hc Hl].
  unfold not_null in Hc. apply negb_true_iff in Hc. rewrite Hc. apply IHl, Hl.
Qed.

Lemma address_not_bundle (s : string) (rest : list byte) :
  address_ok s = true -> is_bundle (osc_string s ++ rest) = false.
Proof.
  unfold address_ok, osc_string, is_bundle. cbv zeta. intros Hok.
  apply andb_true_iff in Hok as [Hok _]. apply andb_true_iff in Hok as [Hfirst _].
  destruct (list_byte_of_string s) as [|first body]; [discriminate|].
  apply Byte.byte_dec_bl in Hfirst. subst first.
  apply bool_decide_eq_false. cbn. discriminate.
Qed.

(** Strings with an embedded null are refused. *)
Lemma encode_embedded_null (addr s : string) :
  has_null s = true -> encode (mkMessage addr [Str s]) = Err EmbeddedNull.
Proof.
  intros Hnull. unfold encode. cbn [address arguments].
  destruct (has_null addr); [reflexivity|].
  unfold args_error. cbn [arg_error]. rewrite Hnull. reflexivity.
Qed.

(** C6: every representable message is accepted by [encode], and [decode]
    gives the message back from the bytes. *)
Theorem decode_encode (m : Message) :
  representable m = true ->
  exists bytes, encode m = Ok bytes /\ decode bytes = Ok (AMessage m).
Proof.
  destruct m as [addr args]. unfold representable. cbn [address arguments].
  intros Hrep. apply andb_true_iff in Hrep as [Haddr Hargs].
  assert (has_null addr = false) as Hnull.
  { unfold address_ok in Haddr. apply andb_true_iff in Haddr as [_ Hn].
    apply negb_true_iff in Hn. exact Hn. }
  eexists. split.
  - unfold encode. cbn [address arguments].
    rewrite Hnull, (args_ok_no_error args Hargs). reflexivity.
  - unfold decode. cbn [decode_fuel].
    rewrite (address_not_bundle addr _ Haddr).
    unfold decode_message.
    rewrite (read_string_osc_string addr _ Hnull). cbn [mbind Result_bind].
    rewrite (read_string_osc_string _ _ (tag_string_no_null args)).
    cbn [mbind Result_bind]. rewrite list_ascii_of_string_of_list_ascii.
    change (Ascii.eqb "," ",") with true. cbv iota.
    rewrite (read_args_arguments args Hargs). reflexivity.
Qed.

Lemma decode_encode_witness :
  exists bytes,
    encode scenario_message = Ok bytes /\ decode bytes = Ok (AMessage scenario_message).
Proof. apply (decode_encode scenario_message). reflexivity. Defined.

End CodecFacts.
